(** * The retry agent worker of the custom-agent cookbook

    A shallow embedding of [RetryAgentWorker] from the notebook "Building a
    Custom Agent": the helper [get_chat_prompt_template], the
    structured critique [ResponseEval], the constructor, the three hooks
    [_initialize_state], [_run_step], [_finalize_task], and the properties the
    specification states about the bounded retry loop.

    The Router ([RouterQueryEngine.query]) and the Critic (the
    [LLMTextCompletionProgram] built over [ResponseEval]) are external
    collaborators.  They are taken as parameters acting on an abstract
    [World]; every query the step sends them is recorded in a log so that
    statements about "how often" and "with which question" can be made.

    The second part embeds [YourOpenAIAgent] from the notebook "Build your
    own OpenAI Agent": its tool registry, its chat turn with the loop over
    the tool calls, and [reset], over a heap of history lists. *)

From stdpp Require Import base list strings gmap pretty.
From Stdlib Require Import ZArith Lia Ascii.

Local Open Scope string_scope.
Local Open Scope list_scope.

(** ** Chat messages and the critic's prompt *)

Inductive MessageRole := SYSTEM | USER | ASSISTANT.

Record ChatMessage := { role : MessageRole; content : string }.

Record ChatPromptTemplate := { message_templates : list ChatMessage }.

Definition DEFAULT_PROMPT_STR : string :=
"
Given previous question/response pairs, please determine if an error has occurred in the response, and suggest     a modified question that will not trigger the error.

Examples of modified questions:
- The question itself is modified to elicit a non-erroneous response
- The question is augmented with context that will help the downstream system better answer the question.
- The question is augmented with examples of negative responses, or other negative questions.

An error means that either an exception has triggered, or the response is completely irrelevant to the question.

Please return the evaluation of the response in the following JSON format.

".

(** [messages.append(...)] once per raw message, in order; any role tag
    other than "user" is read as the assistant's. *)
Definition get_chat_prompt_template
    (system_prompt : string) (current_reasoning : list (string * string))
  : ChatPromptTemplate :=
  let system_msg := {| role := SYSTEM; content := system_prompt |} in
  let messages :=
    fold_left
      (fun messages raw_msg =>
         if String.eqb (fst raw_msg) "user"
         then messages ++ [{| role := USER; content := snd raw_msg |}]
         else messages ++ [{| role := ASSISTANT; content := snd raw_msg |}])
      current_reasoning [system_msg] in
  {| message_templates := messages |}.

(** Evaluation of whether the response has an error. *)
Record ResponseEval := {
  has_error : bool;
  new_question : string;
  explanation : string
}.

(** ** Exceptions, tasks, task state *)

Inductive PyExc :=
| ValueError (msg : string)
| Exception (msg : string).

Inductive Result (A : Type) :=
| Raised (e : PyExc)
| Returned (a : A).
Arguments Raised {A} e.
Arguments Returned {A} a.

Module Task.
Record t := { task_id : string; input : string }.
End Task.

(** The state dictionary of a task.  [_initialize_state] creates the keys
    "count" and "current_reasoning"; "new_input" is absent until the first
    step stores it, which the option records. *)
Module State.
Record t := {
  count : Z;
  current_reasoning : list (string * string);
  new_input : option string
}.
End State.

Record AgentChatResponse := { response : string }.

(** ** Tools *)

Record ToolMetadata := { name : string; description : string }.

Inductive Selector : Set := PydanticSingleSelector.

(** A callback manager, by the names of its handlers. *)
Inductive CallbackManager := CallbackManagerOf (handlers : list string).

Section Worker.

(** The state of everything outside the worker (models, indices, tables). *)
Variable World : Type.
(** What the Router returns, and its [__str__]. *)
Variable Response : Type.
Variable str : Response -> string.
Variable LLM : Type.
Variable QueryEngine : Type.

Inductive BaseTool :=
| QueryEngineTool (metadata : ToolMetadata) (query_engine : QueryEngine)
| OtherTool (metadata : ToolMetadata).

Definition metadata (tool : BaseTool) : ToolMetadata :=
  match tool with
  | QueryEngineTool m _ => m
  | OtherTool m => m
  end.

(** [isinstance(tool, QueryEngineTool)] *)
Definition isinstance_QueryEngineTool (tool : BaseTool) : bool :=
  match tool with
  | QueryEngineTool _ _ => true
  | OtherTool _ => false
  end.

Record RouterQueryEngine := {
  selector : Selector;
  query_engine_tools : list BaseTool;
  router_verbose : bool
}.

(** ** The worker *)

Record RetryAgentWorker := {
  tools : list BaseTool;
  llm : LLM;
  verbose : bool;
  prompt_str : string;
  max_iterations : Z;
  _router_query_engine : RouterQueryEngine
}.

(** The keyword arguments the constructor is called with, as far as this
    file reads them: the base properties [llm], [verbose] and
    [callback_manager], and the two fields the subclass declares.  A key
    that is not passed is [None]. *)
Record Kwargs := {
  kw_llm : option LLM;
  kw_verbose : option bool;
  kw_callback_manager : option CallbackManager;
  kw_prompt_str : option string;
  kw_max_iterations : option Z
}.

(** The fields the base constructor settles. *)
Record Fields := {
  f_tools : list BaseTool;
  f_llm : LLM;
  f_verbose : bool;
  f_prompt_str : string;
  f_max_iterations : Z
}.

(** The constructors of the framework that [__init__] calls.  Each may
    raise; none is in the notebook.

    [PydanticSingleSelector.from_defaults()]: *)
Variable from_defaults : Result Selector.
(** [RouterQueryEngine(selector=..., query_engine_tools=..., verbose=...)]:
    what the constructor raises, if it does.  An engine that was built is
    represented by what it was built from. *)
Variable RouterQueryEngine_raises : Selector -> list BaseTool -> bool -> option PyExc.
(** [super().__init__(tools=tools, **kwargs)]: the fields it settles, or
    what it raises. *)
Variable super_init : list BaseTool -> Kwargs -> Result Fields.

(** [for tool in tools: if not isinstance(...): raise ValueError(...)] *)
Fixpoint validate_tools (tools : list BaseTool) : Result unit :=
  match tools with
  | [] => Returned tt
  | tool :: rest =>
      if negb (isinstance_QueryEngineTool tool)
      then Raised (ValueError
             ("Tool " +:+ name (metadata tool) +:+ " is not a query engine tool."))
      else validate_tools rest
  end.

(** Init params: the tools are validated, then the router is built and kept
    in the private attribute, then the base constructor is called. *)
Definition __init__ (tools : list BaseTool) (kwargs : Kwargs)
  : Result RetryAgentWorker :=
  match validate_tools tools with
  | Raised e => Raised e
  | Returned _ =>
      match from_defaults with
      | Raised e => Raised e
      | Returned selector =>
          let verbose := default false (kw_verbose kwargs) in
          match RouterQueryEngine_raises selector tools verbose with
          | Some e => Raised e
          | None =>
              let router :=
                {| selector := selector;
                   query_engine_tools := tools;
                   router_verbose := verbose |} in
              match super_init tools kwargs with
              | Raised e => Raised e
              | Returned fields =>
                  Returned {| tools := f_tools fields;
                              llm := f_llm fields;
                              verbose := f_verbose fields;
                              prompt_str := f_prompt_str fields;
                              max_iterations := f_max_iterations fields;
                              _router_query_engine := router |}
              end
          end
      end
  end.

(** ** The collaborators *)

(** What the step asks of the outside and what it is answered, in order
    (a Router answer is recorded as its text). *)
Inductive Event :=
| RouterQuery (engine : RouterQueryEngine) (query_str : string)
              (result : Result string)
| CriticCall (llm : LLM) (prompt : ChatPromptTemplate)
             (query_str response_str : string) (result : Result ResponseEval).

Record Sys := { world : World; log : list Event }.

(** [RouterQueryEngine.query]: selects a handler and answers, or raises. *)
Variable router_query :
  RouterQueryEngine -> string -> World -> Result Response * World.

(** The program [LLMTextCompletionProgram.from_defaults(output_parser=
    PydanticOutputParser(output_cls=ResponseEval), prompt=..., llm=...)]
    called with [query_str] and [response_str]: the parsed evaluation, or
    what formatting the prompt, the model or the parser raises. *)
Variable llm_program :
  LLM -> ChatPromptTemplate -> string -> string -> World
  -> Result ResponseEval * World.

Definition query (engine : RouterQueryEngine) (q : string) (sys : Sys)
  : Result Response * Sys :=
  let (r, w) := router_query engine q (world sys) in
  (r, {| world := w;
         log := log sys ++ [RouterQuery engine q
                              match r with
                              | Raised e => Raised e
                              | Returned response => Returned (str response)
                              end] |}).

Definition run_program (l : LLM) (prompt : ChatPromptTemplate)
    (query_str response_str : string) (sys : Sys) : Result ResponseEval * Sys :=
  let (ev, w) := llm_program l prompt query_str response_str (world sys) in
  (ev, {| world := w;
          log := log sys ++ [CriticCall l prompt query_str response_str ev] |}).

(** ** The three hooks *)

(** Initialize state. *)
Definition _initialize_state (self : RetryAgentWorker) (task : Task.t) : State.t :=
  {| State.count := 0%Z; State.current_reasoning := []; State.new_input := None |}.

(** Run step.  Returns the outcome (an exception, or the pair
    [(agent_response, is_done)]), the state dictionary as the call leaves
    it, and the outside world.  No call is guarded: what the Router raises
    leaves the state as it was, what the Critic raises leaves the
    transcript already extended in place.  What [verbose] prints is not
    modelled. *)
Definition _run_step (self : RetryAgentWorker) (state : State.t)
    (task : Task.t) (input : option string) (sys : Sys)
  : Result (AgentChatResponse * bool) * State.t * Sys :=
  let new_input :=
    match input with
    | Some input => input
    | None =>
        match State.new_input state with
        | None => Task.input task
        | Some pending => pending
        end
    end in
  match query (_router_query_engine self) new_input sys with
  | (Raised e, sys1) => (Raised e, state, sys1)
  | (Returned response, sys1) =>
      let state1 :=
        {| State.count := State.count state;
           State.current_reasoning :=
             State.current_reasoning state
               ++ [("user", new_input); ("assistant", str response)];
           State.new_input := State.new_input state |} in
      let chat_prompt_tmpl :=
        get_chat_prompt_template (prompt_str self) (State.current_reasoning state1) in
      match run_program (llm self) chat_prompt_tmpl new_input (str response) sys1 with
      | (Raised e, sys2) => (Raised e, state1, sys2)
      | (Returned response_eval, sys2) =>
          let is_done := if negb (has_error response_eval) then true else false in
          let state2 :=
            {| State.count := State.count state1;
               State.current_reasoning := State.current_reasoning state1;
               State.new_input := Some (new_question response_eval) |} in
          (Returned ({| response := str response |}, is_done), state2, sys2)
      end
  end.

(** Finalize task: nothing to finalize here. *)
Definition _finalize_task (self : RetryAgentWorker) (state : State.t) : State.t :=
  state.

(** ** Driving the worker *)

(** Step-wise mode: an external driver invokes one step per element of
    [inputs], each with or without an override question, whatever the
    previous step answered.  Every outcome is kept with the state the call
    left behind. *)
Fixpoint run_steps (self : RetryAgentWorker) (task : Task.t)
    (inputs : list (option string)) (state : State.t) (sys : Sys)
  : list (Result (AgentChatResponse * bool) * State.t) * State.t * Sys :=
  match inputs with
  | [] => ([], state, sys)
  | input :: rest =>
      let '(out, state1, sys1) := _run_step self state task input sys in
      let '(outs, state2, sys2) := run_steps self task rest state1 sys1 in
      ((out, state1) :: outs, state2, sys2)
  end.

(** Modelled from the spec: the run-to-completion driver (the agent runner's
    chat loop, which the notebook calls and does not contain), "repeated
    [_run_step] invocations on one task until [is_done]".  [fuel] bounds how long the run is observed: [None]
    says the loop is still running after [fuel] steps, none of which was
    done. *)
Fixpoint run_until_done (fuel : nat) (self : RetryAgentWorker) (task : Task.t)
    (state : State.t) (sys : Sys)
  : option (Result AgentChatResponse) * State.t * Sys :=
  match fuel with
  | O => (None, state, sys)
  | S fuel' =>
      match _run_step self state task None sys with
      | (Raised e, state1, sys1) => (Some (Raised e), state1, sys1)
      | (Returned (agent_response, true), state1, sys1) =>
          (Some (Returned agent_response), state1, sys1)
      | (Returned (_, false), state1, sys1) =>
          run_until_done fuel' self task state1 sys1
      end
  end.

(** ** Reading the log and the outcomes *)

(** The questions the Router was asked, in order. *)
Definition router_queries (l : list Event) : list string :=
  flat_map (fun ev => match ev with
                      | RouterQuery _ q _ => [q]
                      | CriticCall _ _ _ _ _ => []
                      end) l.

(** The (question, answer) pairs put before the Critic, in order: one per
    step that got an answer from the Router. *)
Definition exchanges (l : list Event) : list (string * string) :=
  flat_map (fun ev => match ev with
                      | RouterQuery _ _ _ => []
                      | CriticCall _ _ q a _ => [(q, a)]
                      end) l.

(** A transcript made of question/answer pairs alone. *)
Definition as_transcript (xs : list (string * string)) : list (string * string) :=
  flat_map (fun x => [("user", fst x); ("assistant", snd x)]) xs.

(** Between [sys] and [sys'] the Router answered [r] and the Critic judged
    that answer as [ev], and nothing else was asked. *)
Definition critiqued (sys sys' : Sys) (r : string) (ev : ResponseEval) : Prop :=
  exists engine q l prompt query_str,
    log sys' = log sys ++ [RouterQuery engine q (Returned r);
                           CriticCall l prompt query_str r (Returned ev)].

(** The number of Critic calls that raised. *)
Definition critic_failures (l : list Event) : nat :=
  length (List.filter (fun ev => match ev with
                                 | CriticCall _ _ _ _ (Raised _) => true
                                 | _ => false
                                 end) l).

(** The number of invocations that returned. *)
Definition completed (outs : list (Result (AgentChatResponse * bool) * State.t)) : nat :=
  length (List.filter (fun o => match fst o with
                                | Returned _ => true
                                | Raised _ => false
                                end) outs).

(** Another instance that differs in [max_iterations] only. *)
Definition with_max_iterations (n : Z) (self : RetryAgentWorker) : RetryAgentWorker :=
  {| tools := tools self;
     llm := llm self;
     verbose := verbose self;
     prompt_str := prompt_str self;
     max_iterations := n;
     _router_query_engine := _router_query_engine self |}.

End Worker.

Arguments QueryEngineTool {QueryEngine} metadata query_engine.
Arguments OtherTool {QueryEngine} metadata.
Arguments metadata {QueryEngine} tool.
Arguments isinstance_QueryEngineTool {QueryEngine} tool.
Arguments selector {QueryEngine} _.
Arguments query_engine_tools {QueryEngine} _.
Arguments router_verbose {QueryEngine} _.
Arguments tools {LLM QueryEngine} _.
Arguments llm {LLM QueryEngine} _.
Arguments verbose {LLM QueryEngine} _.
Arguments prompt_str {LLM QueryEngine} _.
Arguments max_iterations {LLM QueryEngine} _.
Arguments _router_query_engine {LLM QueryEngine} _.
Arguments Build_Kwargs {LLM} _ _ _ _ _.
Arguments kw_llm {LLM} _.
Arguments kw_verbose {LLM} _.
Arguments kw_callback_manager {LLM} _.
Arguments kw_prompt_str {LLM} _.
Arguments kw_max_iterations {LLM} _.
Arguments Build_Fields {LLM QueryEngine} _ _ _ _ _.
Arguments f_tools {LLM QueryEngine} _.
Arguments f_llm {LLM QueryEngine} _.
Arguments f_verbose {LLM QueryEngine} _.
Arguments f_prompt_str {LLM QueryEngine} _.
Arguments f_max_iterations {LLM QueryEngine} _.
Arguments validate_tools {QueryEngine} tools.
Arguments __init__ {LLM QueryEngine} from_defaults RouterQueryEngine_raises super_init
  tools kwargs.
Arguments RouterQuery {LLM QueryEngine} engine query_str result.
Arguments CriticCall {LLM QueryEngine} llm prompt query_str response_str result.
Arguments Build_Sys {World LLM QueryEngine} world log.
Arguments world {World LLM QueryEngine} _.
Arguments log {World LLM QueryEngine} _.
Arguments query {World Response} str {LLM QueryEngine} router_query engine q sys.
Arguments run_program {World LLM QueryEngine} llm_program l prompt query_str response_str sys.
Arguments _initialize_state {LLM QueryEngine} self task.
Arguments _run_step {World Response} str {LLM QueryEngine} router_query llm_program
  self state task input sys.
Arguments _finalize_task {LLM QueryEngine} self state.
Arguments run_steps {World Response} str {LLM QueryEngine} router_query llm_program
  self task inputs state sys.
Arguments run_until_done {World Response} str {LLM QueryEngine} router_query llm_program
  fuel self task state sys.
Arguments router_queries {LLM QueryEngine} l.
Arguments exchanges {LLM QueryEngine} l.
Arguments completed outs : clear implicits.
Arguments critiqued {World LLM QueryEngine} sys sys' r ev.
Arguments critic_failures {LLM QueryEngine} l.
Arguments with_max_iterations {LLM QueryEngine} n self.

(** ** The notebook's setup, as a concrete instance

    Handlers are named by strings, the Router's answer is its text, and the
    world counts the calls made to the Router so far. *)
Module Cities.

Definition sql_tool : BaseTool string :=
  QueryEngineTool
    {| name := "query_engine_tool";
       description := "Useful for translating a natural language query into a SQL query over a table containing: city_stats, containing the population/country of each city" |}
    "city_stats".

Definition vector_tool (city : string) : BaseTool string :=
  QueryEngineTool
    {| name := "query_engine_tool";
       description := "Useful for answering semantic questions about " +:+ city |}
    city.

Definition cities : list string := ["Toronto"; "Berlin"; "Tokyo"].

Definition query_engine_tools : list (BaseTool string) :=
  [sql_tool] ++ map vector_tool cities.

(** A tool that is no query engine tool. *)
Definition function_tool : BaseTool string :=
  OtherTool {| name := "multiply"; description := "Multiply two integers" |}.

(** [llm=llm, verbose=True, callback_manager=callback_manager], and
    [max_iterations] when a budget is given. *)
Definition kwargs (budget : option Z) : Kwargs string :=
  {| kw_llm := Some "gpt-4";
     kw_verbose := Some true;
     kw_callback_manager := Some (CallbackManagerOf []);
     kw_prompt_str := None;
     kw_max_iterations := budget |}.


(** The selector's defaults are at hand and the router's constructor takes
    any tools. *)
Definition from_defaults : Result Selector := Returned PydanticSingleSelector.

Definition RouterQueryEngine_raises (s : Selector) (tools : list (BaseTool string))
    (verbose : bool) : option PyExc := None.

(** A base constructor in the manner of the framework's: its signature has
    no keyword for the fields the subclass declares, it needs a model, and
    validation refuses a callback manager that is missing; the declared
    defaults fill the subclass's fields. *)
Definition super_init (tools : list (BaseTool string)) (kwargs : Kwargs string)
  : Result (Fields string string) :=
  match kw_prompt_str kwargs, kw_max_iterations kwargs, kw_llm kwargs with
  | Some _, _, _ | _, Some _, _ =>
      Raised (Exception "TypeError: __init__() got an unexpected keyword argument")
  | None, None, None =>
      Raised (Exception "TypeError: __init__() missing 1 required positional argument: 'llm'")
  | None, None, Some l =>
      match kw_callback_manager kwargs with
      | None => Raised (ValueError "1 validation error for RetryAgentWorker: callback_manager")
      | Some _ =>
          Returned {| f_tools := tools;
                      f_llm := l;
                      f_verbose := default false (kw_verbose kwargs);
                      f_prompt_str := DEFAULT_PROMPT_STR;
                      f_max_iterations := 10%Z |}
      end
  end.

Definition construct := __init__ from_defaults RouterQueryEngine_raises super_init.

(** The worker that [RetryAgentWorker.from_tools(query_engine_tools, llm=llm,
    verbose=True, callback_manager=callback_manager)] builds, its
    [max_iterations] set to the budget given. *)
Definition agent_worker (budget : Z) : RetryAgentWorker string string :=
  {| tools := query_engine_tools;
     llm := "gpt-4";
     verbose := true;
     prompt_str := DEFAULT_PROMPT_STR;
     max_iterations := budget;
     _router_query_engine :=
       Build_RouterQueryEngine string PydanticSingleSelector query_engine_tools true |}.

Definition question : string := "Which countries are each city from?".
Definition rewritten : string :=
  "Which country is each of the following cities from: Toronto, Tokyo, Berlin?".
Definition first_answer : string :=
  "The city of Toronto is from Canada, Tokyo is from Japan, and Berlin is from Germany.".
Definition second_answer : string :=
  "Toronto is from Canada, Tokyo is from Japan, and Berlin is from Germany.".

Definition task : Task.t := {| Task.task_id := "task-0"; Task.input := question |}.

(** The Router of the first run of the notebook. *)
Definition router_query (engine : RouterQueryEngine string)
    (q : string) (calls : nat) : Result string * nat :=
  (Returned (if String.eqb q question then first_answer else second_answer), S calls).

(** The Critic of the first run of the notebook: it objects to the vague
    question and accepts the answer to any other. *)
Definition llm_program (l : string) (prompt : ChatPromptTemplate)
    (query_str response_str : string) (calls : nat) : Result ResponseEval * nat :=
  (Returned
     (if String.eqb query_str question
      then {| has_error := true; new_question := rewritten;
              explanation := "The original question was too vague." |}
      else {| has_error := false; new_question := ""; explanation := "" |}),
   calls).

(** A Critic that is never satisfied and asks the same question again. *)
Definition stubborn_program (l : string) (prompt : ChatPromptTemplate)
    (query_str response_str : string) (calls : nat) : Result ResponseEval * nat :=
  (Returned {| has_error := true; new_question := query_str;
               explanation := "The response does not answer the question." |},
   calls).


(** A Router whose selected handler fails with an exception. *)
Definition broken_router (engine : RouterQueryEngine string)
    (q : string) (calls : nat) : Result string * nat :=
  (Raised (Exception "no such table: city_stats"), S calls).

Definition start : Sys nat string string :=
  {| world := O; log := [] |}.

Definition step := _run_step id router_query llm_program.
Definition steps := run_steps id router_query llm_program.
Definition chat := run_until_done id router_query llm_program.
Definition stubborn_step := _run_step id router_query stubborn_program.
Definition stubborn_steps := run_steps id router_query stubborn_program.
Definition stubborn_chat := run_until_done id router_query stubborn_program.
Definition broken_step := _run_step id broken_router llm_program.

End Cities.

(** * The agent of the notebook "Build your own OpenAI Agent"

    [YourOpenAIAgent] keeps a registry of tools by name and a chat history,
    asks the model, runs the tools the model's first reply calls for and
    asks the model again after each of them.  The history is a Python list
    that the agent mutates in place and that may be shared, so the lists
    live in a heap and the agent holds the location of its own. *)
Module YourOpenAIAgent.

Module FunctionCall.
Record t := { name : string; arguments : string }.
End FunctionCall.

Module ToolCall.
Record t := { id : string; function : FunctionCall.t }.
End ToolCall.

(** The keys of [additional_kwargs] the agent reads or writes. *)
Module AdditionalKwargs.
Record t := {
  tool_calls : option (list ToolCall.t);
  tool_call_id : option string;
  name : option string
}.
End AdditionalKwargs.

(** A chat message has a role, a content and additional keyword arguments.
    It has no field [name]: the keyword [name=] that [_call_function] also
    passes is dropped, the name is kept under [additional_kwargs] only. *)
Module ChatMessage.
Record t := {
  role : string;
  content : option string;
  additional_kwargs : AdditionalKwargs.t
}.
End ChatMessage.

Inductive Error :=
| KeyError (key : string)
| Failure (msg : string).

Inductive Outcome (A : Type) :=
| Raise (e : Error)
| Return (a : A).
Arguments Raise {A} e.
Arguments Return {A} a.

(** A Python dict with string keys: insertion ordered, one entry per key; a
    key set again keeps its place and takes the new value. *)
Fixpoint dict_set {V : Type} (k : string) (v : V) (d : list (string * V))
  : list (string * V) :=
  match d with
  | [] => [(k, v)]
  | (k', v') :: rest =>
      if String.eqb k k' then (k, v) :: rest else (k', v') :: dict_set k v rest
  end.

Fixpoint dict_get {V : Type} (k : string) (d : list (string * V)) : option V :=
  match d with
  | [] => None
  | (k', v') :: rest => if String.eqb k k' then Some v' else dict_get k rest
  end.

(** The list objects, by location. *)
Abbreviation Heap := (gmap nat (list ChatMessage.t)).

Definition read (heap : Heap) (l : nat) : list ChatMessage.t :=
  default [] (heap !! l).

(** [list.append] on the list at [l]. *)
Definition append (l : nat) (m : ChatMessage.t) (heap : Heap) : Heap :=
  <[l := read heap l ++ [m]]> heap.

(** The list that the default value [chat_history = []] denotes: it is made
    once, when the [def] is executed, and every call that omits the argument
    gets this same list. *)
Definition default_chat_history : nat := O.

Section Agent.

Variable World : Type.
Variable LLM : Type.
(** The default [OpenAI(temperature=0, model="gpt-3.5-turbo-0613")]. *)
Variable default_llm : LLM.
(** What a tool wraps, the keyword arguments it is called with, its output
    and the output's [str]. *)
Variable Fn : Type.
Variable Kwargs : Type.
Variable Output : Type.
Variable str : Output -> string.
Variable OpenAITool : Type.
Variable to_openai_tool : ToolMetadata -> OpenAITool.

Record Tool := { fn : Fn; metadata : ToolMetadata }.

Record Agent := {
  _llm : LLM;
  _tools : list (string * Tool);
  _chat_history : nat
}.

Inductive Event :=
| LlmChat (history : list ChatMessage.t) (tools : option (list OpenAITool))
| ToolRun (tool : Tool) (arguments : string).

Record Sys := { world : World; log : list Event }.

(** [self._llm.chat(chat_history, tools=...).message] *)
Variable llm_chat :
  LLM -> list ChatMessage.t -> option (list OpenAITool) -> World
  -> Outcome ChatMessage.t * World.
(** [json.loads] of the arguments, as far as they can be passed as keyword
    arguments. *)
Variable json_loads : string -> Outcome Kwargs.
(** The call of the tool. *)
Variable call : Fn -> Kwargs -> World -> Outcome Output * World.

Definition ask (l : LLM) (history : list ChatMessage.t)
    (tools : option (list OpenAITool)) (sys : Sys) : Outcome ChatMessage.t * Sys :=
  let (r, w) := llm_chat l history tools (world sys) in
  (r, {| world := w; log := log sys ++ [LlmChat history tools] |}).

Definition __init__ (tools : option (list Tool)) (llm : option LLM)
    (chat_history : option nat) : Agent :=
  {| _llm := default default_llm llm;
     _tools := fold_left (fun d tool => dict_set (name (metadata tool)) tool d)
                 (default [] tools) [];
     _chat_history := default default_chat_history chat_history |}.

(** [self._chat_history = []]: a new list, the old one is left alone. *)
Definition reset (self : Agent) (heap : Heap) : Agent * Heap :=
  let l := fresh (dom heap) in
  ({| _llm := _llm self; _tools := _tools self; _chat_history := l |},
   <[l := []]> heap).

Definition _call_function (self : Agent) (tool_call : ToolCall.t) (sys : Sys)
  : Outcome ChatMessage.t * Sys :=
  let id_ := ToolCall.id tool_call in
  let function_call := ToolCall.function tool_call in
  match dict_get (FunctionCall.name function_call) (_tools self) with
  | None => (Raise (KeyError (FunctionCall.name function_call)), sys)
  | Some tool =>
      match json_loads (FunctionCall.arguments function_call) with
      | Raise e => (Raise e, sys)
      | Return kwargs =>
          let sys1 :=
            {| world := world sys;
               log := log sys ++ [ToolRun tool (FunctionCall.arguments function_call)] |} in
          match call (fn tool) kwargs (world sys1) with
          | (Raise e, w) => (Raise e, {| world := w; log := log sys1 |})
          | (Return output, w) =>
              (Return
                 {| ChatMessage.content := Some (str output);
                    ChatMessage.role := "tool";
                    ChatMessage.additional_kwargs :=
                      {| AdditionalKwargs.tool_calls := None;
                         AdditionalKwargs.tool_call_id := Some id_;
                         AdditionalKwargs.name :=
                           Some (FunctionCall.name function_call) |} |},
               {| world := w; log := log sys1 |})
          end
      end
  end.

(** [for tool_call in tool_calls: ...], with the reply at hand. *)
Fixpoint for_tool_calls (self : Agent) (tool_calls : list ToolCall.t)
    (ai_message : ChatMessage.t) (heap : Heap) (sys : Sys)
  : Outcome (option string) * Heap * Sys :=
  match tool_calls with
  | [] => (Return (ChatMessage.content ai_message), heap, sys)
  | tool_call :: rest =>
      match _call_function self tool_call sys with
      | (Raise e, sys1) => (Raise e, heap, sys1)
      | (Return function_message, sys1) =>
          let heap1 := append (_chat_history self) function_message heap in
          match ask (_llm self) (read heap1 (_chat_history self)) None sys1 with
          | (Raise e, sys2) => (Raise e, heap1, sys2)
          | (Return ai_message, sys2) =>
              let heap2 := append (_chat_history self) ai_message heap1 in
              for_tool_calls self rest ai_message heap2 sys2
          end
      end
  end.

Definition user_message (message : string) : ChatMessage.t :=
  {| ChatMessage.role := "user";
     ChatMessage.content := Some message;
     ChatMessage.additional_kwargs :=
       {| AdditionalKwargs.tool_calls := None;
          AdditionalKwargs.tool_call_id := None;
          AdditionalKwargs.name := None |} |}.

Definition chat (self : Agent) (message : string) (heap : Heap) (sys : Sys)
  : Outcome (option string) * Heap * Sys :=
  let chat_history := _chat_history self in
  let heap1 := append chat_history (user_message message) heap in
  let tools := map (fun item => to_openai_tool (metadata (snd item))) (_tools self) in
  match ask (_llm self) (read heap1 chat_history) (Some tools) sys with
  | (Raise e, sys1) => (Raise e, heap1, sys1)
  | (Return ai_message, sys1) =>
      let heap2 := append chat_history ai_message heap1 in
      match AdditionalKwargs.tool_calls (ChatMessage.additional_kwargs ai_message) with
      | None => (Return (ChatMessage.content ai_message), heap2, sys1)
      | Some tool_calls => for_tool_calls self tool_calls ai_message heap2 sys1
      end
  end.

(** ** Reading the log *)

Definition llm_calls (l : list Event) : list (option (list OpenAITool)) :=
  flat_map (fun ev => match ev with
                      | LlmChat _ tools => [tools]
                      | ToolRun _ _ => []
                      end) l.

Definition tool_runs (l : list Event) : list (Tool * string) :=
  flat_map (fun ev => match ev with
                      | LlmChat _ _ => []
                      | ToolRun tool arguments => [(tool, arguments)]
                      end) l.

End Agent.

Arguments fn {Fn} _.
Arguments metadata {Fn} _.
Arguments Build_Tool {Fn} fn metadata.
Arguments _llm {LLM Fn} _.
Arguments _tools {LLM Fn} _.
Arguments _chat_history {LLM Fn} _.
Arguments LlmChat {Fn OpenAITool} history tools.
Arguments ToolRun {Fn OpenAITool} tool arguments.
Arguments world {World Fn OpenAITool} _.
Arguments log {World Fn OpenAITool} _.
Arguments Build_Sys {World Fn OpenAITool} world log.
Arguments __init__ {LLM} default_llm {Fn} tools llm chat_history.
Arguments reset {LLM Fn} self heap.
Arguments _call_function {World LLM Fn Kwargs Output} str {OpenAITool} json_loads call
  self tool_call sys.
Arguments for_tool_calls {World LLM Fn Kwargs Output} str {OpenAITool} llm_chat json_loads call
  self tool_calls ai_message heap sys.
Arguments chat {World LLM Fn Kwargs Output} str {OpenAITool} to_openai_tool llm_chat
  json_loads call self message heap sys.
Arguments ask {World LLM Fn OpenAITool} llm_chat l history tools sys.
Arguments llm_calls {Fn OpenAITool} l.
Arguments tool_runs {Fn OpenAITool} l.

End YourOpenAIAgent.

(** ** The notebook's calculator agent, as a concrete instance

    Tools wrap functions of two integers, the keyword arguments are the pair
    [(a, b)], the model is named by a string and offered the tools by name,
    and the world counts the calls made to the model. *)
Module Calculator.

(** Multiple two integers and returns the result integer *)
Definition multiply (a b : Z) : Z := (a * b)%Z.

(** Add two integers and returns the result integer *)
Definition add (a b : Z) : Z := (a + b)%Z.

Definition multiply_tool : YourOpenAIAgent.Tool (Z -> Z -> Z) :=
  YourOpenAIAgent.Build_Tool multiply
    {| name := "multiply";
       description := "multiply(a: int, b: int) -> int
Multiple two integers and returns the result integer" |}.

Definition add_tool : YourOpenAIAgent.Tool (Z -> Z -> Z) :=
  YourOpenAIAgent.Build_Tool add
    {| name := "add";
       description := "add(a: int, b: int) -> int
Add two integers and returns the result integer" |}.

Definition default_llm : string := "gpt-3.5-turbo-0613".

(** The double quote, and a JSON string. *)
Definition dquote : Ascii.ascii := "034"%char.

Definition quoted (text : string) : string :=
  String dquote text +:+ String dquote "".

(** The argument text of the one tool call the scripted model makes: the
    JSON object with the members [a] = 2123 and [b] = 215123. *)
Definition arguments_text : string :=
  "{" +:+ quoted "a" +:+ ": 2123, " +:+ quoted "b" +:+ ": 215123}".

Definition is_space (c : Ascii.ascii) : bool :=
  Ascii.eqb c " "%char || Ascii.eqb c "009"%char
  || Ascii.eqb c "010"%char || Ascii.eqb c "013"%char.

Fixpoint skip_ws (s : string) : string :=
  match s with
  | String c rest => if is_space c then skip_ws rest else s
  | EmptyString => s
  end.

(** The next token is the character [c]. *)
Definition expect (c : Ascii.ascii) (s : string) : option string :=
  match skip_ws s with
  | String c' rest => if Ascii.eqb c c' then Some rest else None
  | EmptyString => None
  end.

(** The characters up to the closing quote; no escapes. *)
Fixpoint until_quote (s : string) : option (string * string) :=
  match s with
  | EmptyString => None
  | String c rest =>
      if Ascii.eqb c dquote then Some ("", rest)
      else if Ascii.eqb c "\"%char then None
      else match until_quote rest with
           | Some (text, rest') => Some (String c text, rest')
           | None => None
           end
  end.

Definition digit (c : Ascii.ascii) : option Z :=
  let n := Z.of_nat (Ascii.nat_of_ascii c) in
  if ((48 <=? n) && (n <=? 57))%Z then Some (n - 48)%Z else None.

Fixpoint digits (s : string) : list Z * string :=
  match s with
  | EmptyString => ([], s)
  | String c rest =>
      match digit c with
      | Some d => let (ds, rest') := digits rest in (d :: ds, rest')
      | None => ([], s)
      end
  end.

(** A JSON integer: an optional minus sign and digits without a leading
    zero; a fraction or an exponent makes the number no integer. *)
Definition integer (s : string) : option (Z * string) :=
  let s := skip_ws s in
  let '(negative, s) :=
    match s with
    | String "-"%char rest => (true, rest)
    | _ => (false, s)
    end in
  let (ds, rest) := digits s in
  let value := fold_left (fun acc d => (10 * acc + d)%Z) ds 0%Z in
  let more := match rest with
              | String c _ =>
                  Ascii.eqb c "."%char || Ascii.eqb c "e"%char || Ascii.eqb c "E"%char
              | EmptyString => false
              end in
  match ds with
  | [] => None
  | 0%Z :: _ :: _ => None
  | _ => if more then None else Some (if negative then (- value)%Z else value, rest)
  end.

(** A member whose value is an integer. *)
Definition member (s : string) : option (string * Z * string) :=
  match expect dquote s with
  | None => None
  | Some s1 =>
      match until_quote s1 with
      | None => None
      | Some (key, s2) =>
          match expect ":"%char s2 with
          | None => None
          | Some s3 =>
              match integer s3 with
              | None => None
              | Some (value, s4) => Some (key, value, s4)
              end
          end
      end
  end.

(** [json.loads] on the argument texts the calculator's tools take: a JSON
    object with the two integer members [a] and [b], in either order, read
    as the keyword arguments [(a, b)].  Any other text is refused, be it no
    JSON or JSON the tools cannot be called with. *)
Definition json_loads (s : string) : YourOpenAIAgent.Outcome (Z * Z) :=
  let refused := YourOpenAIAgent.Raise (YourOpenAIAgent.Failure "JSONDecodeError") in
  match expect "{"%char s with
  | None => refused
  | Some s1 =>
      match member s1 with
      | None => refused
      | Some (key1, value1, s2) =>
          match expect ","%char s2 with
          | None => refused
          | Some s3 =>
              match member s3 with
              | None => refused
              | Some (key2, value2, s4) =>
                  match expect "}"%char s4 with
                  | None => refused
                  | Some s5 =>
                      match skip_ws s5 with
                      | EmptyString =>
                          if String.eqb key1 "a" && String.eqb key2 "b"
                          then YourOpenAIAgent.Return (value1, value2)
                          else if String.eqb key1 "b" && String.eqb key2 "a"
                          then YourOpenAIAgent.Return (value2, value1)
                          else YourOpenAIAgent.Raise
                                 (YourOpenAIAgent.Failure "TypeError")
                      | String _ _ => refused
                      end
                  end
              end
          end
      end
  end.

Definition call (f : Z -> Z -> Z) (kwargs : Z * Z) (calls : nat)
  : YourOpenAIAgent.Outcome Z * nat :=
  (YourOpenAIAgent.Return (f (fst kwargs) (snd kwargs)), calls).

Definition plain (text : string) : YourOpenAIAgent.ChatMessage.t :=
  {| YourOpenAIAgent.ChatMessage.role := "assistant";
     YourOpenAIAgent.ChatMessage.content := Some text;
     YourOpenAIAgent.ChatMessage.additional_kwargs :=
       {| YourOpenAIAgent.AdditionalKwargs.tool_calls := None;
          YourOpenAIAgent.AdditionalKwargs.tool_call_id := None;
          YourOpenAIAgent.AdditionalKwargs.name := None |} |}.

Definition multiply_call : YourOpenAIAgent.ToolCall.t :=
  {| YourOpenAIAgent.ToolCall.id := "call_1";
     YourOpenAIAgent.ToolCall.function :=
       {| YourOpenAIAgent.FunctionCall.name := "multiply";
          YourOpenAIAgent.FunctionCall.arguments := arguments_text |} |}.

Definition wants_multiply : YourOpenAIAgent.ChatMessage.t :=
  {| YourOpenAIAgent.ChatMessage.role := "assistant";
     YourOpenAIAgent.ChatMessage.content := None;
     YourOpenAIAgent.ChatMessage.additional_kwargs :=
       {| YourOpenAIAgent.AdditionalKwargs.tool_calls := Some [multiply_call];
          YourOpenAIAgent.AdditionalKwargs.tool_call_id := None;
          YourOpenAIAgent.AdditionalKwargs.name := None |} |}.

(** A scripted model: it greets, asks for the product to be computed when
    the user asks for it, and words the result of a tool. *)
Definition llm_chat (l : string) (history : list YourOpenAIAgent.ChatMessage.t)
    (tools : option (list string)) (calls : nat)
  : YourOpenAIAgent.Outcome YourOpenAIAgent.ChatMessage.t * nat :=
  (YourOpenAIAgent.Return
     match last history with
     | Some m =>
         if String.eqb (YourOpenAIAgent.ChatMessage.role m) "tool"
         then plain ("The product is "
                     +:+ default "" (YourOpenAIAgent.ChatMessage.content m) +:+ ".")
         else if String.eqb (default "" (YourOpenAIAgent.ChatMessage.content m))
                   "What is 2123 * 215123"
         then wants_multiply
         else plain "Hello! How can I assist you today?"
     | None => plain "Hello! How can I assist you today?"
     end,
   S calls).

Definition chat :=
  YourOpenAIAgent.chat (pretty : Z -> string) name llm_chat json_loads call.

(** [YourOpenAIAgent(tools=[multiply_tool, add_tool])] *)
Definition agent : YourOpenAIAgent.Agent string (Z -> Z -> Z) :=
  YourOpenAIAgent.__init__ default_llm (Some [multiply_tool; add_tool]) None None.

(** An agent that was given the addition only. *)
Definition adder : YourOpenAIAgent.Agent string (Z -> Z -> Z) :=
  YourOpenAIAgent.__init__ default_llm (Some [add_tool]) None None.

(** The heap once the class is defined: the default history, empty. *)
Definition heap0 : YourOpenAIAgent.Heap := {[ YourOpenAIAgent.default_chat_history := [] ]}.

Definition start : YourOpenAIAgent.Sys nat (Z -> Z -> Z) string :=
  YourOpenAIAgent.Build_Sys O [].

End Calculator.

(** ** More readers of the log *)

(** The prompts put before the Critic, in order. *)
Definition critic_prompts {LLM QueryEngine : Type}
    (l : list (Event LLM QueryEngine)) : list ChatPromptTemplate :=
  flat_map (fun ev => match ev with
                      | RouterQuery _ _ _ => []
                      | CriticCall _ prompt _ _ _ => [prompt]
                      end) l.

(** The chat messages of a list of question/answer pairs. *)
Definition dialogue (xs : list (string * string)) : list ChatMessage :=
  flat_map (fun x => [{| role := USER; content := fst x |};
                      {| role := ASSISTANT; content := snd x |}]) xs.

(** A log in which every Router query either raised, or is followed at once
    by the Critic call that judges its question and its answer. *)
Fixpoint paired {LLM QueryEngine : Type} (l : list (Event LLM QueryEngine)) : bool :=
  match l with
  | [] => true
  | RouterQuery _ _ (Raised _) :: rest => paired rest
  | RouterQuery _ q (Returned a) :: CriticCall _ _ q' a' _ :: rest =>
      String.eqb q q' && String.eqb a a' && paired rest
  | _ => false
  end.

(** * Properties *)

Section Properties.

Context {World Response LLM QueryEngine : Type}.
Variable str : Response -> string.
Variable router_query :
  RouterQueryEngine QueryEngine -> string -> World -> Result Response * World.
Variable llm_program :
  LLM -> ChatPromptTemplate -> string -> string -> World
  -> Result ResponseEval * World.

Local Abbreviation step := (_run_step str router_query llm_program).
Local Abbreviation steps := (run_steps str router_query llm_program).
Local Abbreviation loop := (run_until_done str router_query llm_program).
Local Abbreviation Worker := (RetryAgentWorker LLM QueryEngine).
Local Abbreviation System := (Sys World LLM QueryEngine).

Implicit Types (self : Worker) (state : State.t) (task : Task.t)
  (input : option string) (sys : System).

(** The question a step settles on before it asks the Router. *)
Local Abbreviation resolved state task input :=
  (match input with
   | Some given => given
   | None => match State.new_input state with
             | None => Task.input task
             | Some pending => pending
             end
   end).

(** ** One step, by what the Router and the Critic do *)

Lemma run_step_raised self state task input sys e w :
  router_query (_router_query_engine self) (resolved state task input) (world sys)
    = (Raised e, w) ->
  step self state task input sys
    = (Raised e, state,
       {| world := w;
          log := log sys ++ [RouterQuery (_router_query_engine self)
                               (resolved state task input) (Raised e)] |}).
Proof.
  intros Hq. unfold _run_step, query. rewrite Hq. reflexivity.
Qed.

Lemma run_step_returned self state task input sys r w ev w' :
  let q := resolved state task input in
  let transcript :=
    State.current_reasoning state ++ [("user", q); ("assistant", str r)] in
  let prompt := get_chat_prompt_template (prompt_str self) transcript in
  router_query (_router_query_engine self) q (world sys) = (Returned r, w) ->
  llm_program (llm self) prompt q (str r) w = (Returned ev, w') ->
  step self state task input sys
    = (Returned ({| response := str r |}, negb (has_error ev)),
       {| State.count := State.count state;
          State.current_reasoning := transcript;
          State.new_input := Some (new_question ev) |},
       {| world := w';
          log := log sys ++ [RouterQuery (_router_query_engine self) q (Returned (str r));
                             CriticCall (llm self) prompt q (str r) (Returned ev)] |}).
Proof.
  intros q transcript prompt Hq Hc.
  unfold _run_step, query, run_program. fold q. rewrite Hq. cbn.
  fold transcript. fold prompt. rewrite Hc. cbn.
  rewrite <- app_assoc. cbn. destruct (has_error ev); reflexivity.
Qed.

Lemma run_step_critic_raised self state task input sys r w e w' :
  let q := resolved state task input in
  let transcript :=
    State.current_reasoning state ++ [("user", q); ("assistant", str r)] in
  let prompt := get_chat_prompt_template (prompt_str self) transcript in
  router_query (_router_query_engine self) q (world sys) = (Returned r, w) ->
  llm_program (llm self) prompt q (str r) w = (Raised e, w') ->
  step self state task input sys
    = (Raised e,
       {| State.count := State.count state;
          State.current_reasoning := transcript;
          State.new_input := State.new_input state |},
       {| world := w';
          log := log sys ++ [RouterQuery (_router_query_engine self) q (Returned (str r));
                             CriticCall (llm self) prompt q (str r) (Raised e)] |}).
Proof.
  intros q transcript prompt Hq Hc.
  unfold _run_step, query, run_program. fold q. rewrite Hq. cbn.
  fold transcript. fold prompt. rewrite Hc. cbn.
  rewrite <- app_assoc. reflexivity.
Qed.

(** A step stops at the Router with the state untouched, or stops at the
    Critic with the transcript extended, or goes through both. *)
Lemma run_step_cases self state task input sys :
  let q := resolved state task input in
  (exists e w,
      step self state task input sys
      = (Raised e, state,
         {| world := w;
            log := log sys ++ [RouterQuery (_router_query_engine self) q (Raised e)] |}))
  \/ (exists r e w,
      step self state task input sys
      = (Raised e,
         {| State.count := State.count state;
            State.current_reasoning :=
              State.current_reasoning state ++ [("user", q); ("assistant", r)];
            State.new_input := State.new_input state |},
         {| world := w;
            log := log sys
                   ++ [RouterQuery (_router_query_engine self) q (Returned r);
                       CriticCall (llm self)
                         (get_chat_prompt_template (prompt_str self)
                            (State.current_reasoning state
                               ++ [("user", q); ("assistant", r)]))
                         q r (Raised e)] |}))
  \/ (exists r ev w,
      step self state task input sys
      = (Returned ({| response := r |}, negb (has_error ev)),
         {| State.count := State.count state;
            State.current_reasoning :=
              State.current_reasoning state ++ [("user", q); ("assistant", r)];
            State.new_input := Some (new_question ev) |},
         {| world := w;
            log := log sys
                   ++ [RouterQuery (_router_query_engine self) q (Returned r);
                       CriticCall (llm self)
                         (get_chat_prompt_template (prompt_str self)
                            (State.current_reasoning state
                               ++ [("user", q); ("assistant", r)]))
                         q r (Returned ev)] |})).
Proof.
  intros q.
  destruct (router_query (_router_query_engine self) q (world sys)) as [[e|r] w] eqn:Hq.
  - left. exists e, w. by apply run_step_raised.
  - right.
    destruct (llm_program (llm self)
                (get_chat_prompt_template (prompt_str self)
                   (State.current_reasoning state ++ [("user", q); ("assistant", str r)]))
                q (str r) w) as [[e|ev] w'] eqn:Hc.
    + left. exists (str r), e, w'.
      exact (run_step_critic_raised self state task input sys r w e w' Hq Hc).
    + right. exists (str r), ev, w'.
      exact (run_step_returned self state task input sys r w ev w' Hq Hc).
Qed.

Lemma router_queries_app (l1 l2 : list (Event LLM QueryEngine)) :
  router_queries (l1 ++ l2) = router_queries l1 ++ router_queries l2.
Proof. unfold router_queries. apply flat_map_app. Qed.


(** Appending one message per entry is mapping the entries. *)
Lemma append_messages_map (current_reasoning : list (string * string))
    (acc : list ChatMessage) :
  fold_left
    (fun messages raw_msg =>
       if String.eqb (fst raw_msg) "user"
       then messages ++ [{| role := USER; content := snd raw_msg |}]
       else messages ++ [{| role := ASSISTANT; content := snd raw_msg |}])
    current_reasoning acc
  = acc ++ map (fun raw_msg =>
                  {| role := if String.eqb (fst raw_msg) "user" then USER else ASSISTANT;
                     content := snd raw_msg |}) current_reasoning.
Proof.
  revert acc. induction current_reasoning as [|raw_msg rest IH]; intros acc; cbn.
  - by rewrite app_nil_r.
  - rewrite IH. destruct (String.eqb (fst raw_msg) "user"); by rewrite <- app_assoc.
Qed.

(** The prompt is the system message followed by the transcript, entry by
    entry. *)
Lemma get_chat_prompt_template_map system_prompt current_reasoning :
  message_templates (get_chat_prompt_template system_prompt current_reasoning)
  = {| role := SYSTEM; content := system_prompt |}
    :: map (fun raw_msg =>
              {| role := if String.eqb (fst raw_msg) "user" then USER else ASSISTANT;
                 content := snd raw_msg |}) current_reasoning.
Proof.
  unfold get_chat_prompt_template. cbn. by rewrite append_messages_map.
Qed.


(** ** The claims about one step *)



(** C5: the question a step puts to the Router is the override when one is
    given, else the rewrite the previous step stored in
    [state["new_input"]] when there is one, else the task's original input.
    The override is not kept: the next step, run without one, asks the
    Critic's rewrite of this step (or, had the Router raised, what was
    pending before). *)
Theorem question_resolution self state task input sys :
  let '(out, state1, sys1) := step self state task input sys in
  let '(_, _, sys2) := step self state1 task None sys1 in
  router_queries (log sys1)
  = router_queries (log sys)
    ++ [match input with
        | Some override => override
        | None => match State.new_input state with
                  | Some rewrite => rewrite
                  | None => Task.input task
                  end
        end]
  /\ exists next,
      router_queries (log sys2) = router_queries (log sys1) ++ [next]
      /\ match out with
         | Returned _ => exists r ev, critiqued sys sys1 r ev /\ next = new_question ev
         | Raised _ => next = match State.new_input state with
                              | Some rewrite => rewrite
                              | None => Task.input task
                              end
         end.
Proof.
  destruct (run_step_cases self state task input sys)
    as [(e & w & H) | [(r & e & w & H) | (r & ev & w & H)]]; rewrite H; clear H;
    match goal with |- context [step self ?st task None ?s] =>
      destruct (run_step_cases self st task None s)
        as [(e1 & w1 & H) | [(r1 & e1 & w1 & H) | (r1 & ev1 & w1 & H)]];
      rewrite H; clear H end;
    cbn [log State.new_input]; rewrite !router_queries_app; cbn;
    (split; [destruct input, (State.new_input state); reflexivity |]);
    eexists; (split; [reflexivity |]);
    first [ reflexivity
          | exists r, ev; (split; [| reflexivity]);
            unfold critiqued; cbn [log]; eauto 10 ].
Qed.

(** C6, as the code has it: an answer the Router returns, whatever its text
    says, is appended to the transcript and put before the Critic at the end
    of the prompt; when the Critic returns its evaluation the answer is
    returned, with [is_done] decided by [has_error] alone.  Nothing is
    caught: an exception the Router raises is raised by the step, which
    leaves the state as it was and does not ask the Critic, and an exception
    the Critic raises is raised by the step too, the transcript already
    extended and the pending question left as it was. *)
Theorem router_outcome_decides_step self state task input sys :
  let q := resolved state task input in
  match router_query (_router_query_engine self) q (world sys) with
  | (Raised e, w) =>
      step self state task input sys
      = (Raised e, state,
         {| world := w;
            log := log sys ++ [RouterQuery (_router_query_engine self) q (Raised e)] |})
  | (Returned answer, _) =>
      exists verdict state' sys' prompt before,
        State.current_reasoning state'
        = State.current_reasoning state ++ [("user", q); ("assistant", str answer)]
        /\ log sys'
           = log sys ++ [RouterQuery (_router_query_engine self) q (Returned (str answer));
                         CriticCall (llm self) prompt q (str answer) verdict]
        /\ prompt = get_chat_prompt_template (prompt_str self) (State.current_reasoning state')
        /\ message_templates prompt
           = before ++ [{| role := USER; content := q |};
                        {| role := ASSISTANT; content := str answer |}]
        /\ match verdict with
           | Returned ev =>
               step self state task input sys
               = (Returned ({| response := str answer |}, negb (has_error ev)),
                  state', sys')
           | Raised e =>
               step self state task input sys = (Raised e, state', sys')
               /\ State.new_input state' = State.new_input state
           end
  end.
Proof.
  intros q.
  destruct (router_query (_router_query_engine self) q (world sys)) as [[e|r] w] eqn:Hq.
  - by apply run_step_raised.
  - set (transcript := State.current_reasoning state ++ [("user", q); ("assistant", str r)]).
    assert (exists before,
               message_templates (get_chat_prompt_template (prompt_str self) transcript)
               = before ++ [{| role := USER; content := q |};
                            {| role := ASSISTANT; content := str r |}])
      as [before Hbefore].
    { rewrite get_chat_prompt_template_map. unfold transcript.
      rewrite map_app. cbn. rewrite app_comm_cons. by eexists. }
    destruct (llm_program (llm self)
                (get_chat_prompt_template (prompt_str self) transcript) q (str r) w)
      as [[e|ev] w'] eqn:Hc.
    + eexists (Raised e), _, _, _, before.
      rewrite (run_step_critic_raised self state task input sys r w e w' Hq Hc).
      cbn. by repeat split.
    + eexists (Returned ev), _, _, _, before.
      rewrite (run_step_returned self state task input sys r w ev w' Hq Hc).
      cbn. by repeat split.
Qed.

(** C10: an instance that differs in [max_iterations] only behaves the same:
    state initialization, every step and finalization give the same results
    and the same state updates on the same inputs. *)
Theorem max_iterations_never_read self n state task input sys :
  _initialize_state (with_max_iterations n self) task = _initialize_state self task
  /\ step (with_max_iterations n self) state task input sys
     = step self state task input sys
  /\ _finalize_task (with_max_iterations n self) state = _finalize_task self state.
Proof.
  destruct self as [ts l v p m engine].
  split; [|split]; reflexivity.
Qed.

(** Two instances whose other fields agree are of that form. *)
Lemma differ_in_max_iterations_only (w1 w2 : Worker) :
  tools w1 = tools w2 -> llm w1 = llm w2 -> verbose w1 = verbose w2 ->
  prompt_str w1 = prompt_str w2 ->
  _router_query_engine w1 = _router_query_engine w2 ->
  w2 = with_max_iterations (max_iterations w2) w1.
Proof.
  destruct w1, w2; cbn; intros; subst; reflexivity.
Qed.

(** ** Sequences of steps *)






(** No step writes the counter. *)
Lemma run_steps_count inputs : forall self task state sys outs state' sys',
  steps self task inputs state sys = (outs, state', sys') ->
  Forall (fun o => State.count (snd o) = State.count state) outs.
Proof.
  induction inputs as [|input rest IH]; intros self task state sys outs state' sys' H; cbn in H.
  - injection H as <- <- <-. constructor.
  - destruct (step self state task input sys) as [[out state1] sys1] eqn:H1.
    destruct (steps self task rest state1 sys1) as [[outs2 state2] sys2] eqn:H2.
    injection H as <- <- <-.
    assert (State.count state1 = State.count state) as Hc.
    { destruct (run_step_cases self state task input sys)
        as [(e & w & E) | [(r & e & w & E) | (r & ev & w & E)]];
        rewrite E in H1; by injection H1 as <- <- <-. }
    constructor; [exact Hc |]. rewrite <- Hc. by eapply IH.
Qed.


(** C8: over state initialization followed by any sequence of invocations,
    the counter [state["count"]] never decreases from one state to the
    next and, the configured maximum being no negative number, never
    exceeds it. *)
Theorem count_monotone_and_bounded self task inputs sys :
  (0 <= max_iterations self)%Z ->
  let '(outs, _, _) := steps self task inputs (_initialize_state self task) sys in
  let counts := map State.count (_initialize_state self task :: map snd outs) in
  (forall (i : nat) c c',
      counts !! i = Some c -> counts !! S i = Some c' -> (c <= c')%Z)
  /\ (forall c, c ∈ counts -> (c <= max_iterations self)%Z).
Proof.
  intros Hmax.
  destruct (steps self task inputs (_initialize_state self task) sys)
    as [[outs state] sys'] eqn:H.
  pose proof (run_steps_count _ _ _ _ _ _ _ _ H) as Hall. cbn in Hall.
  assert (forall c, c ∈ map State.count (_initialize_state self task :: map snd outs) ->
                    c = 0%Z) as Hzero.
  { intros c Hc. apply list_elem_of_fmap in Hc as (st & -> & Hst).
    apply elem_of_cons in Hst as [-> | Hst]; [reflexivity |].
    apply list_elem_of_fmap in Hst as (o & -> & Ho).
    by apply (proj1 (Forall_forall _ _) Hall). }
  split.
  - intros i c c' Hi Hi'.
    rewrite (Hzero c), (Hzero c'); [lia | |]; eapply list_elem_of_lookup_2; eassumption.
  - intros c Hc. rewrite (Hzero c Hc). exact Hmax.
Qed.

(** ** The run-to-completion loop *)

(** With a Router that answers and a Critic that always reports an error,
    no step is ever done: whatever the budget, the loop observed for [fuel]
    steps is still running and has asked the Router [fuel] times. *)
Lemma unsatisfied_critic_never_done :
  (forall l prompt q a w,
      exists ev w', llm_program l prompt q a w = (Returned ev, w')
                    /\ has_error ev = true) ->
  (forall engine q w, exists r w', router_query engine q w = (Returned r, w')) ->
  forall fuel self task state sys,
    exists state' sys',
      loop fuel self task state sys = (None, state', sys')
      /\ length (router_queries (log sys'))
         = (length (router_queries (log sys)) + fuel)%nat.
Proof.
  intros Hcritic Hrouter.
  induction fuel as [|fuel IH]; intros self task state sys; cbn [run_until_done].
  - exists state, sys. split; [reflexivity | lia].
  - destruct (Hrouter (_router_query_engine self) (resolved state task None) (world sys))
      as (r & w & Hq).
    match type of Hq with router_query _ ?q _ = _ =>
      destruct (Hcritic (llm self)
                  (get_chat_prompt_template (prompt_str self)
                     (State.current_reasoning state ++ [("user", q); ("assistant", str r)]))
                  q (str r) w) as (ev & w' & Hc & Herr) end.
    rewrite (run_step_returned self state task None sys r w ev w' Hq Hc).
    rewrite Herr. cbn [negb].
    match goal with |- context [loop fuel self task ?st ?s] =>
      destruct (IH self task st s) as (state' & sys' & Hrun & Hlen) end.
    exists state', sys'. split; [exact Hrun |].
    rewrite Hlen. cbn [log]. rewrite router_queries_app, length_app. cbn. lia.
Qed.

(** The loop stops at the first step that is done and hands back that
    step's answer. *)
Lemma run_until_done_stops fuel self task state sys agent_response state' sys' :
  step self state task None sys = (Returned (agent_response, true), state', sys') ->
  loop (S fuel) self task state sys = (Some (Returned agent_response), state', sys').
Proof. intros H. cbn [run_until_done]. by rewrite H. Qed.

(** ** The constructor *)



Variable from_defaults : Result Selector.
Variable RouterQueryEngine_raises :
  Selector -> list (BaseTool QueryEngine) -> bool -> option PyExc.
Variable super_init :
  list (BaseTool QueryEngine) -> Kwargs LLM -> Result (Fields LLM QueryEngine).

Local Abbreviation construct :=
  (__init__ from_defaults RouterQueryEngine_raises super_init).


End Properties.

(** * The notebook's runs *)

(** The constructor accepts the notebook's tools and builds the worker. *)
Example init_agent_worker :
  Cities.construct Cities.query_engine_tools (Cities.kwargs None)
  = Returned (Cities.agent_worker 10).
Proof. reflexivity. Qed.

(** A tool of another kind is refused by name. *)
Example init_refuses_function_tool :
  Cities.construct (Cities.query_engine_tools ++ [Cities.function_tool])
    (Cities.kwargs None)
  = Raised (ValueError "Tool multiply is not a query engine tool.").
Proof. reflexivity. Qed.


(** [agent.chat("Which countries are each city from?")]: the Critic objects
    once, the rewritten question is answered, and the second answer is
    returned after two Router queries. *)
Example chat_countries :
  let self := Cities.agent_worker 10 in
  let '(result, state, sys) :=
    Cities.chat 10 self Cities.task (_initialize_state self Cities.task) Cities.start in
  result = Some (Returned {| response := Cities.second_answer |})
  /\ router_queries (log sys) = [Cities.question; Cities.rewritten]
  /\ State.current_reasoning state
     = [("user", Cities.question); ("assistant", Cities.first_answer);
        ("user", Cities.rewritten); ("assistant", Cities.second_answer)]
  /\ State.count state = 0%Z.
Proof. vm_compute. repeat split. Qed.

(** Step-wise: a first step without input, then a step whose input overrides
    the pending question. *)
Example stepwise_override :
  let self := Cities.agent_worker 10 in
  let '(outs, state, sys) :=
    Cities.steps self Cities.task [None; Some "Where is Tokyo?"]
      (_initialize_state self Cities.task) Cities.start in
  map fst outs
  = [Returned ({| response := Cities.first_answer |}, false);
     Returned ({| response := Cities.second_answer |}, true)]
  /\ router_queries (log sys) = [Cities.question; "Where is Tokyo?"]
  /\ State.new_input state = Some "".
Proof. vm_compute. repeat split. Qed.

(** With the never satisfied Critic the run goes on for as long as it is
    observed, whatever budget the worker was given. *)
Corollary stubborn_run_unbounded (budget : Z) (fuel : nat) :
  let self := Cities.agent_worker budget in
  exists state sys,
    Cities.stubborn_chat fuel self Cities.task (_initialize_state self Cities.task)
      Cities.start = (None, state, sys)
    /\ length (router_queries (log sys)) = fuel.
Proof.
  intros self.
  destruct (unsatisfied_critic_never_done id Cities.router_query Cities.stubborn_program)
    with (fuel := fuel) (self := self) (task := Cities.task)
         (state := _initialize_state self Cities.task) (sys := Cities.start)
    as (state & sys & Hrun & Hlen).
  - intros l prompt q a w. by eexists _, _.
  - intros engine q w. by eexists _, _.
  - exists state, sys. split; [exact Hrun | exact Hlen].
Qed.

(** C1, at a budget of one: the Critic reports an error on every answer, the
    run is observed for two steps, and the Router has been asked twice while
    the loop is still not done. *)
Theorem budget_of_one_exceeded :
  let self := Cities.agent_worker 1 in
  let '(result, _, sys) :=
    Cities.stubborn_chat 2 self Cities.task (_initialize_state self Cities.task)
      Cities.start in
  max_iterations self = 1%Z
  /\ result = None
  /\ router_queries (log sys) = [Cities.question; Cities.question].
Proof. vm_compute. repeat split. Qed.

(** C2, at a budget of two: the Critic reports an error on both iterations,
    the second step still answers [is_done = false], the loop has not
    stopped after two iterations, and a third Router query follows. *)
Theorem no_exhaustion_after_budget :
  let self := Cities.agent_worker 2 in
  let init := _initialize_state self Cities.task in
  max_iterations self = 2%Z
  /\ map fst (fst (fst (Cities.stubborn_steps self Cities.task [None; None] init Cities.start)))
     = [Returned ({| response := Cities.first_answer |}, false);
        Returned ({| response := Cities.first_answer |}, false)]
  /\ fst (fst (Cities.stubborn_chat 2 self Cities.task init Cities.start)) = None
  /\ length (router_queries
               (log (snd (Cities.stubborn_chat 3 self Cities.task init Cities.start))))
     = 3%nat.
Proof. vm_compute. repeat split. Qed.

(** The failing handler: the step raises what the Router raised, the state
    is as it was and the Critic was not asked. *)
Example broken_step_raises :
  let self := Cities.agent_worker 10 in
  let init := _initialize_state self Cities.task in
  Cities.broken_step self init Cities.task None Cities.start
  = (Raised (Exception "no such table: city_stats"), init,
     {| world := 1%nat;
        log := [RouterQuery (_router_query_engine self) Cities.question
                  (Raised (Exception "no such table: city_stats"))] |}).
Proof. reflexivity. Qed.


(** C6 fails as stated: with a Router whose handler raises, it is not so
    that every step comes back with an answer. *)
Lemma router_exception_propagates :
  ~ (forall state task input sys,
        exists answer is_done,
          fst (fst (Cities.broken_step (Cities.agent_worker 10) state task input sys))
          = Returned (answer, is_done)).
Proof.
  intros Habsorbed.
  destruct (Habsorbed (_initialize_state (Cities.agent_worker 10) Cities.task)
              Cities.task None Cities.start) as (answer & is_done & H).
  vm_compute in H. discriminate H.
Qed.

(** ** Instances of the conditional statements *)



(** C8 on two steps of the default worker. *)
Lemma count_monotone_and_bounded_witness :
  let self := Cities.agent_worker 10 in
  (0 <= max_iterations self)%Z
  /\ let '(outs, _, _) :=
       Cities.steps self Cities.task [None; None] (_initialize_state self Cities.task)
         Cities.start in
     let counts := map State.count (_initialize_state self Cities.task :: map snd outs) in
     (forall (i : nat) c c',
         counts !! i = Some c -> counts !! S i = Some c' -> (c <= c')%Z)
     /\ (forall c, c ∈ counts -> (c <= max_iterations self)%Z).
Proof.
  intros self. split.
  - cbn. lia.
  - apply (count_monotone_and_bounded id Cities.router_query Cities.llm_program
             self Cities.task [None; None] Cities.start).
    cbn. lia.
Defined.

(** * Further properties of the worker *)

Section MoreProperties.

Context {World Response LLM QueryEngine : Type}.
Variable str : Response -> string.
Variable router_query :
  RouterQueryEngine QueryEngine -> string -> World -> Result Response * World.
Variable llm_program :
  LLM -> ChatPromptTemplate -> string -> string -> World
  -> Result ResponseEval * World.

Local Abbreviation step := (_run_step str router_query llm_program).
Local Abbreviation steps := (run_steps str router_query llm_program).
Local Abbreviation Worker := (RetryAgentWorker LLM QueryEngine).
Local Abbreviation System := (Sys World LLM QueryEngine).

Implicit Types (self : Worker) (state : State.t) (task : Task.t)
  (input : option string) (sys : System).

(** ** The critic's prompt *)

(** X1: the prompt holds the system prompt first and then one message per
    transcript entry, in order and with its text; an entry is read as the
    user's only when its tag is exactly "user", every other tag gives an
    assistant message, so the system message at the head is the only one.
    An empty transcript gives the system message alone. *)
Theorem prompt_has_one_system_message system_prompt
    (current_reasoning : list (string * string)) :
  exists tail,
    message_templates (get_chat_prompt_template system_prompt current_reasoning)
    = {| role := SYSTEM; content := system_prompt |} :: tail
    /\ length tail = length current_reasoning
    /\ Forall (fun m => role m <> SYSTEM) tail
    /\ forall (i : nat) tag text,
         current_reasoning !! i = Some (tag, text) ->
         tail !! i = Some {| role := if String.eqb tag "user" then USER else ASSISTANT;
                             content := text |}.
Proof.
  rewrite get_chat_prompt_template_map. eexists. split; [reflexivity |].
  split; [by rewrite length_map |]. split.
  - apply Forall_forall. intros m Hm.
    apply list_elem_of_fmap in Hm as ([tag text] & -> & _). cbn.
    destruct (String.eqb tag "user"); discriminate.
  - intros i tag text Hi. rewrite list_lookup_fmap, Hi. reflexivity.
Qed.

Lemma prompt_of_as_transcript system_prompt (xs : list (string * string)) :
  message_templates (get_chat_prompt_template system_prompt (as_transcript xs))
  = {| role := SYSTEM; content := system_prompt |} :: dialogue xs.
Proof.
  rewrite get_chat_prompt_template_map. f_equal.
  induction xs as [|x xs IH]; [reflexivity |].
  change (as_transcript (x :: xs))
    with ([("user", fst x); ("assistant", snd x)] ++ as_transcript xs).
  rewrite map_app, IH. reflexivity.
Qed.

(** ** Sequences of steps, by their log *)

(** What a sequence of steps adds to the log, and what it does to the
    state. *)
Lemma run_steps_log inputs : forall self task state sys outs state' sys',
  steps self task inputs state sys = (outs, state', sys') ->
  exists new,
    log sys' = log sys ++ new
    /\ paired new = true
    /\ length (router_queries new) = length inputs
    /\ length (exchanges new) = (completed outs + critic_failures new)%nat
    /\ State.current_reasoning state'
       = State.current_reasoning state ++ as_transcript (exchanges new)
    /\ forall (j : nat) prompt,
         critic_prompts new !! j = Some prompt ->
         prompt = get_chat_prompt_template (prompt_str self)
                    (State.current_reasoning state
                       ++ as_transcript (take (S j) (exchanges new))).
Proof.
  induction inputs as [|input rest IH]; intros self task state sys outs state' sys' H; cbn in H.
  - injection H as <- <- <-. exists []. rewrite !app_nil_r.
    repeat split. intros j prompt Hj. discriminate Hj.
  - destruct (step self state task input sys) as [[out state1] sys1] eqn:H1.
    destruct (steps self task rest state1 sys1) as [[outs2 state2] sys2] eqn:H2.
    injection H as <- <- <-.
    destruct (IH _ _ _ _ _ _ _ H2) as (new & Hlog & Hpair & Hrq & Hex & Htr & Hprompt).
    destruct (run_step_cases str router_query llm_program self state task input sys)
      as [(e & w & E) | [(r & e & w & E) | (r & ev & w & E)]];
      rewrite E in H1; injection H1 as <- <- <-; cbn [log State.current_reasoning] in *.
    + eexists. rewrite Hlog, <- app_assoc. split; [reflexivity |].
      unfold router_queries, exchanges, critic_prompts, critic_failures in *. cbn.
      repeat split; try done. by rewrite Hrq.
    + eexists. rewrite Hlog, <- app_assoc. split; [reflexivity |].
      unfold router_queries, exchanges, critic_prompts, completed, critic_failures in *.
      cbn. rewrite !String.eqb_refl. cbn. repeat split; try done.
      * by rewrite Hrq.
      * rewrite Hex. lia.
      * rewrite Htr, <- app_assoc. reflexivity.
      * intros [|j] prompt Hj; cbn in Hj.
        -- injection Hj as <-. reflexivity.
        -- rewrite (Hprompt j prompt Hj), <- app_assoc. reflexivity.
    + eexists. rewrite Hlog, <- app_assoc. split; [reflexivity |].
      unfold router_queries, exchanges, critic_prompts, completed, critic_failures in *.
      cbn. rewrite !String.eqb_refl. cbn. repeat split; try done.
      * by rewrite Hrq.
      * by rewrite Hex.
      * rewrite Htr, <- app_assoc. reflexivity.
      * intros [|j] prompt Hj; cbn in Hj.
        -- injection Hj as <-. reflexivity.
        -- rewrite (Hprompt j prompt Hj), <- app_assoc. reflexivity.
Qed.

(** There is one prompt per exchange put before the Critic. *)
Lemma critic_prompts_length (l : list (Event LLM QueryEngine)) :
  length (critic_prompts l) = length (exchanges l).
Proof.
  unfold critic_prompts, exchanges.
  induction l as [|[engine q res|lm p q a ev] evs IH]; cbn; [reflexivity | exact IH |].
  by rewrite IH.
Qed.

(** X2: on a freshly initialized task, the prompt of the [j]-th Critic call
    is the worker's system prompt followed by the whole dialogue so far: the
    first [j+1] question/answer pairs put before the Critic, each as a user
    message and an assistant message.  The prompt grows by two messages per
    Critic call and is never cut. *)
Theorem critic_sees_whole_dialogue self task inputs (w : World) :
  let '(_, _, sys) :=
    steps self task inputs (_initialize_state self task) {| world := w; log := [] |} in
  forall (j : nat) prompt,
    critic_prompts (log sys) !! j = Some prompt ->
    message_templates prompt
    = {| role := SYSTEM; content := prompt_str self |}
      :: dialogue (take (S j) (exchanges (log sys)))
    /\ length (message_templates prompt) = (2 * j + 3)%nat.
Proof.
  destruct (steps self task inputs (_initialize_state self task)
              {| world := w; log := [] |}) as [[outs state] sys] eqn:H.
  destruct (run_steps_log _ _ _ _ _ _ _ _ H)
    as (new & Hlog & _ & _ & _ & _ & Hprompt).
  cbn in Hlog. subst new. intros j prompt Hj.
  pose proof (Hprompt j prompt Hj) as ->. cbn [_initialize_state State.current_reasoning app].
  rewrite prompt_of_as_transcript. split; [reflexivity |].
  assert (j < length (exchanges (log sys)))%nat as Hlt.
  { apply lookup_lt_Some in Hj. by rewrite <- critic_prompts_length. }
  cbn [length]. f_equal.
  assert (forall xs : list (string * string), length (dialogue xs) = (2 * length xs)%nat) as Hd.
  { clear. induction xs as [|x xs IH]; [reflexivity |].
    change (dialogue (x :: xs))
      with ([{| role := USER; content := fst x |};
             {| role := ASSISTANT; content := snd x |}] ++ dialogue xs).
    rewrite length_app, IH. cbn. lia. }
  rewrite Hd, length_take. lia.
Qed.

(** One outcome per invocation, and a counter that is never written. *)
Lemma run_steps_outcomes inputs : forall self task state sys outs state' sys',
  steps self task inputs state sys = (outs, state', sys') ->
  length outs = length inputs /\ State.count state' = State.count state.
Proof.
  induction inputs as [|input rest IH]; intros self task state sys outs state' sys' H; cbn in H.
  - by injection H as <- <- <-.
  - destruct (step self state task input sys) as [[out state1] sys1] eqn:H1.
    destruct (steps self task rest state1 sys1) as [[outs2 state2] sys2] eqn:H2.
    injection H as <- <- <-.
    destruct (IH _ _ _ _ _ _ _ H2) as [Hlen Hcount]. cbn. split; [by rewrite Hlen |].
    rewrite Hcount.
    destruct (run_step_cases str router_query llm_program self state task input sys)
      as [(e & w0 & E) | [(r & e & w0 & E) | (r & ev & w0 & E)]];
      rewrite E in H1; by injection H1 as <- <- <-.
Qed.

(** No invocation puts more than one exchange before the Critic. *)
Lemma run_steps_exchanges_le inputs : forall self task state sys outs state' sys',
  steps self task inputs state sys = (outs, state', sys') ->
  exists new,
    log sys' = log sys ++ new
    /\ (length (exchanges new) <= length inputs)%nat.
Proof.
  induction inputs as [|input rest IH]; intros self task state sys outs state' sys' H; cbn in H.
  - injection H as <- <- <-. exists []. rewrite app_nil_r. split; [reflexivity | cbn; lia].
  - destruct (step self state task input sys) as [[out state1] sys1] eqn:H1.
    destruct (steps self task rest state1 sys1) as [[outs2 state2] sys2] eqn:H2.
    injection H as <- <- <-.
    destruct (IH _ _ _ _ _ _ _ H2) as (new & Hlog & Hle).
    destruct (run_step_cases str router_query llm_program self state task input sys)
      as [(e & w0 & E) | [(r & e & w0 & E) | (r & ev & w0 & E)]];
      rewrite E in H1; injection H1 as <- <- <-; cbn [log] in *;
      eexists; rewrite Hlog, <- app_assoc; (split; [reflexivity |]);
      unfold exchanges in *; cbn; lia.
Qed.

(** X3: a sequence of [n] invocations, started in any state, asks the
    Router exactly [n] times and the Critic once per invocation in which the
    Router answered, right after the Router query whose question and answer
    it judges: once per invocation that returned and once per invocation
    that failed at the Critic, never more than [n] times.  What was in the
    transcript before stays in front, and the counter is not written. *)
Theorem steps_call_accounting self task inputs state (w : World) :
  let '(outs, state', sys') :=
    steps self task inputs state {| world := w; log := [] |} in
  length (router_queries (log sys')) = length inputs
  /\ length (exchanges (log sys')) = (completed outs + critic_failures (log sys'))%nat
  /\ (length (exchanges (log sys')) <= length inputs)%nat
  /\ paired (log sys') = true
  /\ State.current_reasoning state'
     = State.current_reasoning state ++ as_transcript (exchanges (log sys'))
  /\ State.count state' = State.count state.
Proof.
  destruct (steps self task inputs state {| world := w; log := [] |})
    as [[outs state'] sys'] eqn:H.
  destruct (run_steps_log _ _ _ _ _ _ _ _ H)
    as (new & Hlog & Hpair & Hrq & Hex & Htr & _).
  destruct (run_steps_outcomes _ _ _ _ _ _ _ _ H) as [Hlen Hcount].
  cbn in Hlog. subst new.
  repeat split; try done.
  destruct (run_steps_exchanges_le _ _ _ _ _ _ _ _ H) as (new & Hnew & Hle).
  cbn in Hnew. by subst new.
Qed.

(** ** The constructor, again *)

Variable from_defaults : Result Selector.
Variable RouterQueryEngine_raises :
  Selector -> list (BaseTool QueryEngine) -> bool -> option PyExc.
Variable super_init :
  list (BaseTool QueryEngine) -> Kwargs LLM -> Result (Fields LLM QueryEngine).

Local Abbreviation construct :=
  (__init__ from_defaults RouterQueryEngine_raises super_init).

(** X4: the tools are checked in order: when the tools before a tool that
    is not a [QueryEngineTool] are all query engine tools, construction
    raises the [ValueError] that names this one, whatever comes after it. *)
Theorem init_names_first_offender
    (before after : list (BaseTool QueryEngine)) (bad : BaseTool QueryEngine)
    (kwargs : Kwargs LLM) :
  (forall tool, tool ∈ before -> isinstance_QueryEngineTool tool = true) ->
  isinstance_QueryEngineTool bad = false ->
  construct (before ++ bad :: after) kwargs
  = Raised (ValueError ("Tool " +:+ name (metadata bad) +:+ " is not a query engine tool.")).
Proof.
  intros Hbefore Hbad. unfold __init__.
  assert (validate_tools (before ++ bad :: after)
          = Raised (ValueError ("Tool " +:+ name (metadata bad)
                                +:+ " is not a query engine tool."))) as ->; [| reflexivity].
  induction before as [|tool rest IH]; cbn [validate_tools app].
  - by rewrite Hbad.
  - rewrite (Hbefore tool) by (apply elem_of_cons; by left). cbn [negb].
    apply IH. intros t Ht. apply Hbefore. apply elem_of_cons. by right.
Qed.

End MoreProperties.

(** X4 on the notebook's tools followed by two tools of another kind: the
    first of the two is the one named. *)
Lemma init_names_first_offender_witness :
  Cities.construct
    (Cities.query_engine_tools
       ++ Cities.function_tool
          :: [OtherTool {| name := "add"; description := "Add two integers" |}])
    (Cities.kwargs None)
  = Raised (ValueError "Tool multiply is not a query engine tool.").
Proof.
  apply (init_names_first_offender
           Cities.from_defaults Cities.RouterQueryEngine_raises Cities.super_init
           Cities.query_engine_tools
           [OtherTool {| name := "add"; description := "Add two integers" |}]
           Cities.function_tool (Cities.kwargs None)).
  - intros tool Htool. unfold Cities.query_engine_tools, Cities.cities in Htool.
    cbn in Htool. repeat (apply elem_of_cons in Htool as [-> | Htool]; [reflexivity |]).
    by apply elem_of_nil in Htool.
  - reflexivity.
Defined.

(** * Properties of [YourOpenAIAgent] *)

Section AgentProperties.

Import YourOpenAIAgent.

Context {World LLM Fn Kwargs Output OpenAITool : Type}.
Variable default_llm : LLM.
Variable str : Output -> string.
Variable to_openai_tool : ToolMetadata -> OpenAITool.
Variable llm_chat :
  LLM -> list ChatMessage.t -> option (list OpenAITool) -> World
  -> Outcome ChatMessage.t * World.
Variable json_loads : string -> Outcome Kwargs.
Variable call : Fn -> Kwargs -> World -> Outcome Output * World.

Local Abbreviation Agent := (YourOpenAIAgent.Agent LLM Fn).
Local Abbreviation Sys := (YourOpenAIAgent.Sys World Fn OpenAITool).
Local Abbreviation init := (YourOpenAIAgent.__init__ default_llm).
Local Abbreviation chat :=
  (YourOpenAIAgent.chat str to_openai_tool llm_chat json_loads call).
Local Abbreviation call_function :=
  (YourOpenAIAgent._call_function str json_loads call).
Local Abbreviation tool_loop :=
  (YourOpenAIAgent.for_tool_calls str llm_chat json_loads call).
Local Abbreviation offered self :=
  (map (fun item : string * Tool Fn =>
          to_openai_tool (YourOpenAIAgent.metadata (snd item))) (_tools self)).

Implicit Types (self : Agent) (heap : Heap) (sys : Sys) (message : string).

(** ** The dictionary and the heap *)

Lemma dict_get_set {V : Type} (k k' : string) (v : V) (d : list (string * V)) :
  dict_get k (dict_set k' v d) = if String.eqb k k' then Some v else dict_get k d.
Proof.
  induction d as [|[k0 v0] d IH]; cbn.
  - reflexivity.
  - destruct (String.eqb_spec k' k0) as [-> | Hne]; cbn.
    + destruct (String.eqb k k0); reflexivity.
    + rewrite IH. destruct (String.eqb_spec k k0) as [-> | Hne'].
      * destruct (String.eqb_spec k0 k'); congruence.
      * reflexivity.
Qed.

Lemma dict_set_keys {V : Type} (k : string) (v : V) (d : list (string * V)) :
  map fst (dict_set k v d)
  = if decide (k ∈ map fst d) then map fst d else map fst d ++ [k].
Proof.
  induction d as [|[k0 v0] d IH]; cbn.
  - reflexivity.
  - destruct (String.eqb_spec k k0) as [-> | Hne]; cbn.
    + rewrite decide_True by (apply elem_of_cons; by left). reflexivity.
    + rewrite IH. destruct (decide (k ∈ map fst d)) as [Hin | Hout].
      * rewrite decide_True by (apply elem_of_cons; by right). reflexivity.
      * rewrite decide_False; [reflexivity |].
        intros [-> | Hin]%elem_of_cons; done.
Qed.

Lemma dict_set_NoDup {V : Type} (k : string) (v : V) (d : list (string * V)) :
  NoDup (map fst d) -> NoDup (map fst (dict_set k v d)).
Proof.
  intros Hd. rewrite dict_set_keys. destruct (decide (k ∈ map fst d)); [exact Hd |].
  apply NoDup_app. split; [exact Hd |]. split.
  - intros x Hx [-> | Hnil%elem_of_nil]%elem_of_cons; done.
  - apply NoDup_singleton.
Qed.

Lemma read_append heap (l : nat) m :
  read (append l m heap) l = read heap l ++ [m].
Proof. unfold read, append. by rewrite lookup_insert_eq. Qed.

Lemma lookup_append_ne heap (l l' : nat) m :
  l' <> l -> append l m heap !! l' = heap !! l'.
Proof. intros Hne. unfold append. by rewrite lookup_insert_ne. Qed.

(** X5: the registry keeps one tool per name: looking a name up gives the
    last of the given tools that bears it, an earlier tool of the same name
    is dropped without notice, and no name is there twice. *)
Theorem registry_last_wins (tools : list (Tool Fn)) llm chat_history (k : string) :
  let self := init (Some tools) llm chat_history in
  dict_get k (_tools self)
  = last (List.filter (fun tool => String.eqb k (name (YourOpenAIAgent.metadata tool))) tools)
  /\ NoDup (map fst (_tools self)).
Proof.
  cbn. induction tools as [|tool tools IH] using rev_ind; cbn.
  - split; [reflexivity | constructor].
  - rewrite fold_left_app. cbn. destruct IH as [IHget IHdup]. split.
    + rewrite dict_get_set, List.filter_app. cbn.
      destruct (String.eqb k (name (YourOpenAIAgent.metadata tool))).
      * by rewrite last_snoc.
      * by rewrite app_nil_r.
    + by apply dict_set_NoDup.
Qed.

(** ** Calling a tool *)

(** A tool call either fails, having run at most the tool it names, or
    gives the tool message that answers it. *)
Lemma call_function_cases self (tool_call : ToolCall.t) sys :
  let fname := FunctionCall.name (ToolCall.function tool_call) in
  (exists e sys1 new,
      call_function self tool_call sys = (Raise e, sys1)
      /\ log sys1 = log sys ++ new
      /\ llm_calls new = []
      /\ (length (tool_runs new) <= 1)%nat)
  \/ (exists function_message sys1 tool,
      call_function self tool_call sys = (Return function_message, sys1)
      /\ dict_get fname (_tools self) = Some tool
      /\ log sys1
         = log sys ++ [ToolRun tool (FunctionCall.arguments (ToolCall.function tool_call))]
      /\ ChatMessage.role function_message = "tool"
      /\ AdditionalKwargs.name (ChatMessage.additional_kwargs function_message)
         = Some fname
      /\ AdditionalKwargs.tool_call_id (ChatMessage.additional_kwargs function_message)
         = Some (ToolCall.id tool_call)).
Proof.
  intros fname. unfold _call_function. fold fname.
  destruct (dict_get fname (_tools self)) as [tool|] eqn:Htool.
  - destruct (json_loads (FunctionCall.arguments (ToolCall.function tool_call)))
      as [e|kwargs].
    + left. exists e, sys, []. rewrite app_nil_r. repeat split. cbn. lia.
    + cbn [world log].
      destruct (call (fn tool) kwargs (world sys)) as [[e|output] w].
      * left. eexists e, _, [_]. repeat split. cbn. lia.
      * right. eexists _, _, tool. repeat split.
  - left. exists (KeyError fname), sys, []. rewrite app_nil_r. repeat split. cbn. lia.
Qed.

Lemma llm_calls_app (l1 l2 : list (YourOpenAIAgent.Event Fn OpenAITool)) :
  llm_calls (l1 ++ l2) = llm_calls l1 ++ llm_calls l2.
Proof. unfold llm_calls. apply flat_map_app. Qed.

Lemma tool_runs_app (l1 l2 : list (YourOpenAIAgent.Event Fn OpenAITool)) :
  tool_runs (l1 ++ l2) = tool_runs l1 ++ tool_runs l2.
Proof. unfold tool_runs. apply flat_map_app. Qed.

Lemma ask_log l history tools sys :
  log (snd (ask llm_chat l history tools sys)) = log sys ++ [LlmChat history tools].
Proof. unfold ask. by destruct (llm_chat l history tools (world sys)). Qed.

(** ** The loop over the tool calls *)

(** Whatever its outcome, the loop only appends to the agent's own list,
    asks the model without offering tools, and runs at most one tool per
    tool call. *)
Lemma tool_loop_any (tool_calls : list ToolCall.t) :
  forall self ai_message heap sys out heap' sys',
    tool_loop self tool_calls ai_message heap sys = (out, heap', sys') ->
    exists added new (k : nat),
      read heap' (_chat_history self) = read heap (_chat_history self) ++ added
      /\ (forall l : nat, l <> _chat_history self -> heap' !! l = heap !! l)
      /\ log sys' = log sys ++ new
      /\ llm_calls new = replicate k None
      /\ (k <= length (tool_runs new) <= S k)%nat
      /\ (length (tool_runs new) <= length tool_calls)%nat.
Proof.
  induction tool_calls as [|tool_call rest IH];
    intros self ai_message heap sys out heap' sys' H; cbn [for_tool_calls] in H.
  - injection H as <- <- <-. exists [], [], O. rewrite !app_nil_r.
    repeat split; cbn; lia.
  - destruct (call_function_cases self tool_call sys)
      as [(e & sys1 & new1 & E & Hlog1 & Hllm1 & Hrun1)
         | (fm & sys1 & tool & E & _ & Hlog1 & _)]; rewrite E in H.
    + injection H as <- <- <-. exists [], new1, O. rewrite app_nil_r.
      repeat split; try done; cbn; lia.
    + set (heap1 := append (_chat_history self) fm heap) in *.
      pose proof (ask_log (_llm self) (read heap1 (_chat_history self)) None sys1) as Hask.
      destruct (ask llm_chat (_llm self) (read heap1 (_chat_history self)) None sys1)
        as [[e|ai1] sys2]; cbn [snd] in Hask.
      * injection H as <- <- <-. eexists [fm], _, 1%nat.
        split; [apply read_append |].
        split; [intros l Hl; by apply lookup_append_ne |].
        rewrite Hask, Hlog1, <- app_assoc. split; [reflexivity |].
        rewrite !llm_calls_app, !tool_runs_app. cbn. repeat split; lia.
      * destruct (IH _ _ _ _ _ _ _ H)
          as (added & new & k & Hread & Hframe & Hlog & Hllm & Hk & Hruns).
        eexists (fm :: ai1 :: added), _, (S k).
        split.
        { rewrite Hread, read_append. unfold heap1. rewrite read_append.
          by rewrite <- !app_assoc. }
        split.
        { intros l Hl. rewrite Hframe by done.
          rewrite lookup_append_ne by done. by apply lookup_append_ne. }
        rewrite Hlog, Hask, Hlog1, <- !app_assoc. split; [reflexivity |].
        rewrite !llm_calls_app, !tool_runs_app, Hllm. cbn. repeat split; lia.
Qed.

(** When the loop returns, every tool call has been answered in order: the
    list gained, per call, the tool message for it and the model's next
    reply, and the text returned is that of the last reply. *)
Lemma tool_loop_returned (tool_calls : list ToolCall.t) :
  forall self ai_message heap sys c heap' sys',
    tool_loop self tool_calls ai_message heap sys = (Return c, heap', sys') ->
    exists added new,
      read heap' (_chat_history self) = read heap (_chat_history self) ++ added
      /\ length added = (2 * length tool_calls)%nat
      /\ (exists m, last (ai_message :: added) = Some m /\ c = ChatMessage.content m)
      /\ (forall (i : nat) tool_call,
            tool_calls !! i = Some tool_call ->
            exists function_message,
              added !! (2 * i)%nat = Some function_message
              /\ ChatMessage.role function_message = "tool"
              /\ AdditionalKwargs.name (ChatMessage.additional_kwargs function_message)
                 = Some (FunctionCall.name (ToolCall.function tool_call))
              /\ AdditionalKwargs.tool_call_id
                   (ChatMessage.additional_kwargs function_message)
                 = Some (ToolCall.id tool_call))
      /\ log sys' = log sys ++ new
      /\ llm_calls new = replicate (length tool_calls) None
      /\ Forall2
           (fun run tool_call =>
              dict_get (FunctionCall.name (ToolCall.function tool_call)) (_tools self)
              = Some (fst run)
              /\ snd run = FunctionCall.arguments (ToolCall.function tool_call))
           (tool_runs new) tool_calls.
Proof.
  induction tool_calls as [|tool_call rest IH];
    intros self ai_message heap sys c heap' sys' H; cbn [for_tool_calls] in H.
  - injection H as <- <- <-. exists [], []. rewrite !app_nil_r.
    repeat split; try done; first [by exists ai_message | constructor].
  - destruct (call_function_cases self tool_call sys)
      as [(e & sys1 & new1 & E & _)
         | (fm & sys1 & tool & E & Htool & Hlog1 & Hrole & Hname & Hid)];
      rewrite E in H; [discriminate H |].
    set (heap1 := append (_chat_history self) fm heap) in *.
    pose proof (ask_log (_llm self) (read heap1 (_chat_history self)) None sys1) as Hask.
    destruct (ask llm_chat (_llm self) (read heap1 (_chat_history self)) None sys1)
      as [[e|ai1] sys2]; cbn [snd] in Hask; [discriminate H |].
    destruct (IH _ _ _ _ _ _ _ H)
      as (added & new & Hread & Hlen & (m & Hlast & Hc) & Hpos & Hlog & Hllm & Hruns).
    eexists (fm :: ai1 :: added), _.
    split.
    { rewrite Hread, read_append. unfold heap1. rewrite read_append.
      by rewrite <- !app_assoc. }
    split; [cbn; lia |].
    split; [exists m; by rewrite !last_cons_cons |].
    split.
    { intros [|i] tc Hi.
      - injection Hi as <-. by exists fm.
      - replace (2 * S i)%nat with (S (S (2 * i))) by lia. cbn. by apply Hpos. }
    rewrite Hlog, Hask, Hlog1, <- !app_assoc. split; [reflexivity |].
    rewrite !llm_calls_app, !tool_runs_app, Hllm. cbn.
    split; [reflexivity |]. by constructor.
Qed.

(** ** One chat turn *)

Lemma chat_appends self message heap sys :
  let '(_, heap', _) := chat self message heap sys in
  (exists added,
      read heap' (_chat_history self)
      = read heap (_chat_history self) ++ user_message message :: added)
  /\ (forall l : nat, l <> _chat_history self -> heap' !! l = heap !! l).
Proof.
  unfold YourOpenAIAgent.chat.
  set (h := _chat_history self). set (heap1 := append h (user_message message) heap).
  destruct (ask llm_chat (_llm self) (read heap1 h) (Some (offered self)) sys)
    as [[e|ai0] sys1].
  - split; [exists []; apply read_append | intros l Hl; by apply lookup_append_ne].
  - destruct (AdditionalKwargs.tool_calls (ChatMessage.additional_kwargs ai0))
      as [tool_calls|].
    + destruct (tool_loop self tool_calls ai0 (append h ai0 heap1) sys1)
        as [[out heap'] sys'] eqn:Hloop.
      destruct (tool_loop_any _ _ _ _ _ _ _ _ Hloop)
        as (added & new & k & Hread & Hframe & _).
      fold h in Hread, Hframe. split.
      * exists (ai0 :: added). rewrite Hread, !read_append. unfold heap1.
        rewrite read_append, <- !app_assoc. reflexivity.
      * intros l Hl. rewrite Hframe by done. rewrite lookup_append_ne by done.
        by apply lookup_append_ne.
    + split.
      * exists [ai0]. rewrite read_append. unfold heap1.
        rewrite read_append, <- app_assoc. reflexivity.
      * intros l Hl. rewrite lookup_append_ne by done. by apply lookup_append_ne.
Qed.

(** X6: whatever a chat turn ends in, an answer or an exception of the
    model, of a tool or of the lookup, it only appends to the agent's own
    history list, the user's message first, and it touches no other list;
    a failed turn leaves the user's message in the history. *)
Theorem chat_only_appends self message heap sys :
  let '(_, heap', _) := chat self message heap sys in
  (exists added,
      read heap' (_chat_history self)
      = read heap (_chat_history self) ++ user_message message :: added)
  /\ (forall l : nat, l <> _chat_history self -> heap' !! l = heap !! l).
Proof. exact (chat_appends self message heap sys). Qed.

(** X7: when a chat turn returns, the history gained the user's message,
    the model's first reply and then, for every tool call of that reply in
    order, the tool message that answers it (the [tool_call_id] and the name
    in its [additional_kwargs] are the call's) followed by the model's next
    reply; the text returned is the content of the last message.  A reply without tool calls, or with an
    empty list of them, adds the two messages only. *)
Theorem chat_answers_every_tool_call self message heap sys c heap' sys' :
  chat self message heap sys = (Return c, heap', sys') ->
  exists ai_message added,
    read heap' (_chat_history self)
    = read heap (_chat_history self) ++ user_message message :: ai_message :: added
    /\ let tool_calls :=
         default [] (AdditionalKwargs.tool_calls
                       (ChatMessage.additional_kwargs ai_message)) in
       length added = (2 * length tool_calls)%nat
       /\ (exists m, last (ai_message :: added) = Some m /\ c = ChatMessage.content m)
       /\ forall (i : nat) tool_call,
            tool_calls !! i = Some tool_call ->
            exists function_message,
              added !! (2 * i)%nat = Some function_message
              /\ ChatMessage.role function_message = "tool"
              /\ AdditionalKwargs.name (ChatMessage.additional_kwargs function_message)
                 = Some (FunctionCall.name (ToolCall.function tool_call))
              /\ AdditionalKwargs.tool_call_id
                   (ChatMessage.additional_kwargs function_message)
                 = Some (ToolCall.id tool_call).
Proof.
  unfold YourOpenAIAgent.chat.
  set (h := _chat_history self). set (heap1 := append h (user_message message) heap).
  destruct (ask llm_chat (_llm self) (read heap1 h) (Some (offered self)) sys)
    as [[e|ai0] sys1]; [discriminate |].
  destruct (AdditionalKwargs.tool_calls (ChatMessage.additional_kwargs ai0))
    as [tool_calls|] eqn:Hcalls.
  - intros Hloop.
    destruct (tool_loop_returned _ _ _ _ _ _ _ _ Hloop)
      as (added & new & Hread & Hlen & Hlast & Hpos & _).
    fold h in Hread. exists ai0, added. rewrite Hcalls. cbn [default].
    split; [| by repeat split].
    rewrite Hread, !read_append. unfold heap1.
    rewrite read_append, <- !app_assoc. reflexivity.
  - intros H. injection H as <- <- <-. exists ai0, []. rewrite Hcalls. cbn [default].
    split.
    + rewrite read_append. unfold heap1. rewrite read_append, <- app_assoc. reflexivity.
    + repeat split; [by exists ai0 | intros i tc Hi; discriminate Hi].
Qed.

(** X8: the model is offered the registered tools, one per name and in
    registration order, in the first call of a turn only; every later call
    of the turn offers none.  A tool is run only between two calls of the
    model, so the turn makes at most one more tool run than later calls. *)
Theorem tools_offered_in_first_call_only self message heap (w : World) :
  let '(_, _, sys') := chat self message heap {| world := w; log := [] |} in
  exists k : nat,
    llm_calls (log sys') = Some (offered self) :: replicate k None
    /\ (k <= length (tool_runs (log sys')) <= S k)%nat.
Proof.
  unfold YourOpenAIAgent.chat.
  set (h := _chat_history self). set (heap1 := append h (user_message message) heap).
  pose proof (ask_log (_llm self) (read heap1 h) (Some (offered self))
                {| world := w; log := [] |}) as Hask.
  destruct (ask llm_chat (_llm self) (read heap1 h) (Some (offered self))
              {| world := w; log := [] |}) as [[e|ai0] sys1]; cbn in Hask.
  - exists O. rewrite Hask. cbn. split; [reflexivity | lia].
  - destruct (AdditionalKwargs.tool_calls (ChatMessage.additional_kwargs ai0))
      as [tool_calls|].
    + destruct (tool_loop self tool_calls ai0 (append h ai0 heap1) sys1)
        as [[out heap'] sys'] eqn:Hloop.
      destruct (tool_loop_any _ _ _ _ _ _ _ _ Hloop)
        as (added & new & k & _ & _ & Hlog & Hllm & Hk & _).
      exists k. rewrite Hlog, Hask, llm_calls_app, tool_runs_app, Hllm. cbn.
      split; [reflexivity | lia].
    + exists O. rewrite Hask. cbn. split; [reflexivity | lia].
Qed.

(** X9: in a turn that returns, the tools run are those the model's first
    reply calls for: one run per call, in order, of the tool registered
    under the call's function name and with the call's argument text.  Tool
    calls in later replies of the turn are not run. *)
Theorem chat_runs_first_reply_calls self message heap (w : World) c heap' sys' :
  chat self message heap {| world := w; log := [] |} = (Return c, heap', sys') ->
  exists ai_message rest,
    read heap' (_chat_history self)
    = read heap (_chat_history self) ++ user_message message :: ai_message :: rest
    /\ Forall2
         (fun run tool_call =>
            dict_get (FunctionCall.name (ToolCall.function tool_call)) (_tools self)
            = Some (fst run)
            /\ snd run = FunctionCall.arguments (ToolCall.function tool_call))
         (tool_runs (log sys'))
         (default [] (AdditionalKwargs.tool_calls
                        (ChatMessage.additional_kwargs ai_message))).
Proof.
  unfold YourOpenAIAgent.chat.
  set (h := _chat_history self). set (heap1 := append h (user_message message) heap).
  pose proof (ask_log (_llm self) (read heap1 h) (Some (offered self))
                {| world := w; log := [] |}) as Hask.
  destruct (ask llm_chat (_llm self) (read heap1 h) (Some (offered self))
              {| world := w; log := [] |}) as [[e|ai0] sys1]; cbn in Hask;
    [discriminate |].
  destruct (AdditionalKwargs.tool_calls (ChatMessage.additional_kwargs ai0))
    as [tool_calls|] eqn:Hcalls.
  - intros Hloop.
    destruct (tool_loop_returned _ _ _ _ _ _ _ _ Hloop)
      as (added & new & Hread & _ & _ & _ & Hlog & _ & Hruns).
    fold h in Hread. exists ai0, added. rewrite Hcalls. cbn [default]. split.
    + rewrite Hread, !read_append. unfold heap1.
      rewrite read_append, <- !app_assoc. reflexivity.
    + rewrite Hlog, Hask, tool_runs_app. exact Hruns.
  - intros H. injection H as <- <- <-. exists ai0, []. rewrite Hcalls. cbn [default].
    split.
    + rewrite read_append. unfold heap1. rewrite read_append, <- app_assoc. reflexivity.
    + rewrite Hask. constructor.
Qed.

(** X10: when the model's first reply calls, first of all, a function under
    a name that is not in the registry, the turn raises [KeyError] of that
    name; no tool has run, the model is not asked again, and the history
    ends with the model's reply, whose tool calls stay unanswered. *)
Theorem chat_unknown_tool self message heap sys ai_message w tool_call rest :
  llm_chat (_llm self)
    (read heap (_chat_history self) ++ [user_message message])
    (Some (offered self)) (world sys) = (Return ai_message, w) ->
  AdditionalKwargs.tool_calls (ChatMessage.additional_kwargs ai_message)
  = Some (tool_call :: rest) ->
  dict_get (FunctionCall.name (ToolCall.function tool_call)) (_tools self) = None ->
  exists heap',
    chat self message heap sys
    = (Raise (KeyError (FunctionCall.name (ToolCall.function tool_call))), heap',
       {| world := w;
          log := log sys
                 ++ [LlmChat (read heap (_chat_history self) ++ [user_message message])
                       (Some (offered self))] |})
    /\ read heap' (_chat_history self)
       = read heap (_chat_history self) ++ [user_message message; ai_message].
Proof.
  intros Hllm Hcalls Hmissing. unfold YourOpenAIAgent.chat, ask.
  rewrite read_append, Hllm, Hcalls. cbn [for_tool_calls].
  unfold _call_function. rewrite Hmissing.
  eexists. split; [reflexivity |].
  rewrite !read_append, <- app_assoc. reflexivity.
Qed.

(** ** Shared histories *)

(** The first thing a turn does is to put the history, with the user's
    message at its end, before the model, together with the tools. *)
Lemma chat_first_call self message heap sys :
  let '(_, _, sys') := chat self message heap sys in
  exists rest,
    log sys'
    = log sys ++ LlmChat (read heap (_chat_history self) ++ [user_message message])
                   (Some (offered self)) :: rest.
Proof.
  unfold YourOpenAIAgent.chat.
  set (h := _chat_history self). set (heap1 := append h (user_message message) heap).
  assert (read heap1 h = read heap h ++ [user_message message]) as ->
    by apply read_append.
  pose proof (ask_log (_llm self) (read heap h ++ [user_message message])
                (Some (offered self)) sys) as Hask.
  destruct (ask llm_chat (_llm self) (read heap h ++ [user_message message])
              (Some (offered self)) sys)
    as [[e|ai0] sys1]; cbn [snd] in Hask.
  - exists []. exact Hask.
  - destruct (AdditionalKwargs.tool_calls (ChatMessage.additional_kwargs ai0))
      as [tool_calls|].
    + destruct (tool_loop self tool_calls ai0 (append h ai0 heap1) sys1)
        as [[out heap'] sys'] eqn:Hloop.
      destruct (tool_loop_any _ _ _ _ _ _ _ _ Hloop)
        as (added & new & k & _ & _ & Hlog & _).
      exists new. rewrite Hlog, Hask, <- app_assoc. reflexivity.
    + exists []. exact Hask.
Qed.

(** X11: agents made without a [chat_history] argument all hold the one
    list that the default value denotes.  After a turn of one of them, a
    turn of another puts before the model a history that holds the first
    agent's user message and whatever that turn added, ahead of its own
    user message. *)
Theorem default_history_is_shared
    (tools1 tools2 : option (list (Tool Fn))) (llm1 llm2 : option LLM)
    (message1 message2 : string) heap sys :
  let agent1 := init tools1 llm1 None in
  let agent2 := init tools2 llm2 None in
  let '(_, heap1, sys1) := chat agent1 message1 heap sys in
  let '(_, _, sys2) := chat agent2 message2 heap1 sys1 in
  exists added rest,
    log sys2
    = log sys1
      ++ LlmChat (read heap default_chat_history
                    ++ user_message message1 :: added ++ [user_message message2])
           (Some (offered agent2)) :: rest.
Proof.
  intros agent1 agent2.
  pose proof (chat_appends agent1 message1 heap sys) as H1.
  destruct (chat agent1 message1 heap sys) as [[out1 heap1] sys1].
  destruct H1 as [(added & Hread) _].
  pose proof (chat_first_call agent2 message2 heap1 sys1) as H2.
  destruct (chat agent2 message2 heap1 sys1) as [[out2 heap2] sys2].
  destruct H2 as (rest & Hlog).
  exists added, rest. rewrite Hlog.
  change (_chat_history agent2) with (_chat_history agent1).
  rewrite Hread. change (_chat_history agent1) with default_chat_history.
  rewrite <- app_assoc. reflexivity.
Qed.

(** X12: [reset] gives the agent a new, empty list and keeps its tools and
    its model; the list it held before, which another agent or the caller
    may still hold, is neither emptied nor written by the agent's next
    turn. *)
Theorem reset_leaves_old_list self heap message sys :
  is_Some (heap !! _chat_history self) ->
  let '(self', heap1) := reset self heap in
  read heap1 (_chat_history self') = []
  /\ _tools self' = _tools self
  /\ _llm self' = _llm self
  /\ heap1 !! _chat_history self = heap !! _chat_history self
  /\ let '(_, heap2, _) := chat self' message heap1 sys in
     heap2 !! _chat_history self = heap !! _chat_history self.
Proof.
  intros Hlive. cbn.
  assert (_chat_history self <> fresh (dom heap)) as Hne.
  { intros Heq. apply (is_fresh (dom heap)). rewrite <- Heq. by apply elem_of_dom. }
  split; [unfold read; by rewrite lookup_insert_eq |].
  split; [reflexivity |]. split; [reflexivity |].
  split; [by rewrite lookup_insert_ne |].
  match goal with |- context [chat ?a message ?h sys] =>
    pose proof (chat_appends a message h sys) as H;
    destruct (chat a message h sys) as [[out heap2] sys2] end.
  destruct H as [_ Hframe]. cbn in Hframe.
  rewrite Hframe by done. by rewrite lookup_insert_ne.
Qed.

End AgentProperties.

(** * The calculator's turns *)

(** The argument text is JSON and is read as the two integers; a text that
    is no JSON is refused. *)
Example json_loads_arguments :
  Calculator.json_loads Calculator.arguments_text
  = YourOpenAIAgent.Return (2123%Z, 215123%Z)
  /\ Calculator.json_loads "a: 2123, b: 215123"
     = YourOpenAIAgent.Raise (YourOpenAIAgent.Failure "JSONDecodeError").
Proof. split; reflexivity. Qed.

(** [agent.chat("Hi")] and [agent.chat("What is 2123 * 215123")] *)
Example calculator_turns :
  let '(hi, heap1, sys1) :=
    Calculator.chat Calculator.agent "Hi" Calculator.heap0 Calculator.start in
  let '(product, heap2, sys2) :=
    Calculator.chat Calculator.agent "What is 2123 * 215123" heap1 sys1 in
  hi = YourOpenAIAgent.Return (Some "Hello! How can I assist you today?")
  /\ product = YourOpenAIAgent.Return (Some "The product is 456706129.")
  /\ length (YourOpenAIAgent.read heap2 YourOpenAIAgent.default_chat_history) = 6%nat
  /\ YourOpenAIAgent.llm_calls (YourOpenAIAgent.log sys2)
     = [Some ["multiply"; "add"]; Some ["multiply"; "add"]; None].
Proof. vm_compute. repeat split. Qed.

(** X7 on the turn that multiplies. *)
Lemma chat_answers_every_tool_call_witness :
  let run := Calculator.chat Calculator.agent "What is 2123 * 215123"
               Calculator.heap0 Calculator.start in
  exists ai_message added,
    YourOpenAIAgent.read (snd (fst run)) YourOpenAIAgent.default_chat_history
    = YourOpenAIAgent.read Calculator.heap0 YourOpenAIAgent.default_chat_history
      ++ YourOpenAIAgent.user_message "What is 2123 * 215123" :: ai_message :: added
    /\ length added
       = (2 * length (default [] (YourOpenAIAgent.AdditionalKwargs.tool_calls
                                    (YourOpenAIAgent.ChatMessage.additional_kwargs
                                       ai_message))))%nat.
Proof.
  intros run.
  assert (run = (YourOpenAIAgent.Return (Some "The product is 456706129."),
                 snd (fst run), snd run)) as Hrun by (vm_compute; reflexivity).
  destruct (chat_answers_every_tool_call (pretty : Z -> string) name
              Calculator.llm_chat Calculator.json_loads Calculator.call
              Calculator.agent "What is 2123 * 215123" Calculator.heap0 Calculator.start
              (Some "The product is 456706129.") (snd (fst run)) (snd run) Hrun)
    as (ai_message & added & Hread & Hlen & _).
  exists ai_message, added. split; [exact Hread | exact Hlen].
Defined.

(** X9 on the turn that multiplies. *)
Lemma chat_runs_first_reply_calls_witness :
  let run := Calculator.chat Calculator.agent "What is 2123 * 215123"
               Calculator.heap0 Calculator.start in
  exists ai_message,
    length (YourOpenAIAgent.tool_runs (YourOpenAIAgent.log (snd run)))
    = length (default [] (YourOpenAIAgent.AdditionalKwargs.tool_calls
                            (YourOpenAIAgent.ChatMessage.additional_kwargs ai_message))).
Proof.
  intros run.
  assert (run = (YourOpenAIAgent.Return (Some "The product is 456706129."),
                 snd (fst run), snd run)) as Hrun by (vm_compute; reflexivity).
  destruct (chat_runs_first_reply_calls (pretty : Z -> string) name
              Calculator.llm_chat Calculator.json_loads Calculator.call
              Calculator.agent "What is 2123 * 215123" Calculator.heap0 O
              (Some "The product is 456706129.") (snd (fst run)) (snd run) Hrun)
    as (ai_message & rest & Hread & Hruns).
  exists ai_message. exact (Forall2_length _ _ _ Hruns).
Defined.

(** X10 on the agent that has the addition only. *)
Lemma chat_unknown_tool_witness :
  exists heap',
    Calculator.chat Calculator.adder "What is 2123 * 215123" Calculator.heap0
      Calculator.start
    = (YourOpenAIAgent.Raise (YourOpenAIAgent.KeyError "multiply"), heap',
       YourOpenAIAgent.Build_Sys 1%nat
         [YourOpenAIAgent.LlmChat [YourOpenAIAgent.user_message "What is 2123 * 215123"]
            (Some ["add"])])
    /\ YourOpenAIAgent.read heap' YourOpenAIAgent.default_chat_history
       = [YourOpenAIAgent.user_message "What is 2123 * 215123"; Calculator.wants_multiply].
Proof.
  apply (chat_unknown_tool (pretty : Z -> string) name
           Calculator.llm_chat Calculator.json_loads Calculator.call
           Calculator.adder "What is 2123 * 215123" Calculator.heap0 Calculator.start
           Calculator.wants_multiply 1%nat Calculator.multiply_call []);
    vm_compute; reflexivity.
Defined.

(** X12 on the calculator after its greeting. *)
Lemma reset_leaves_old_list_witness :
  let heap1 := snd (fst (Calculator.chat Calculator.agent "Hi" Calculator.heap0
                           Calculator.start)) in
  is_Some (heap1 !! YourOpenAIAgent._chat_history Calculator.agent)
  /\ let '(self', heap2) := YourOpenAIAgent.reset Calculator.agent heap1 in
     YourOpenAIAgent.read heap2 (YourOpenAIAgent._chat_history self') = [].
Proof.
  intros heap1.
  assert (is_Some (heap1 !! YourOpenAIAgent._chat_history Calculator.agent)) as Hlive.
  { vm_compute. eexists. reflexivity. }
  split; [exact Hlive |].
  exact (proj1 (reset_leaves_old_list (pretty : Z -> string) name
                  Calculator.llm_chat Calculator.json_loads Calculator.call
                  Calculator.agent heap1 "Hi" Calculator.start Hlive)).
Defined.
